(** * Remo backend: task store, reminder scheduler, browser tools, thinker loop

    A shallow embedding of [main.py], [tools.py] and [agents.py].

    - The SQLite file is a [Database]: the [tasks] table as the list of its
      rows in rowid order (on insert the values are bound, then the primary
      key is checked) and the [push_tokens] table as a finite map from user
      id to token.
    - A handler result is an [outcome]: a returned value or a raised Python
      exception.
    - What the process cannot compute by itself is an argument: the clock
      readings, Python's salted [hash], [json.dumps], the push provider, the
      file system and the browser driver.
    - The tools and the recording endpoint run in [io], which records
      their effects in order ([print] included); the log lines of the store
      handlers and of the scheduler are left out. *)

From Stdlib Require Import String Ascii ZArith List Bool Lia DecimalString.
From stdpp Require Import gmap strings list.

Open Scope string_scope.
Set Warnings "-register-all".

(** ** Python values *)

(** The exceptions the modelled code raises or receives. All of them are
    subclasses of [Exception]; [str_exc] is Python's [str(e)]. *)
Inductive exception : Type :=
| HTTPException (status_code : Z) (detail : string)
| IntegrityError (msg : string)
| FileNotFoundError (msg : string)
| PlaywrightError (msg : string)
| PlaywrightTimeoutError (msg : string)
| FirebaseError (msg : string)
| OtherException (cls : string) (msg : string).

Definition str_exc (e : exception) : string :=
  match e with
  | HTTPException _ detail => detail
  | IntegrityError msg => msg
  | FileNotFoundError msg => msg
  | PlaywrightError msg => msg
  | PlaywrightTimeoutError msg => msg
  | FirebaseError msg => msg
  | OtherException _ msg => msg
  end.

(** Result of a call: [Ret v] for [return v], [Raise e] for an exception
    that leaves the function. *)
Inductive outcome (A : Type) : Type :=
| Ret (v : A)
| Raise (e : exception).
Arguments Ret {A} v.
Arguments Raise {A} e.

(** A computation with effects: the effects performed, in order, and how
    the computation ended. *)
Inductive effect : Type :=
| Print (line : string)                 (* print(...) *)
| Accept                                (* websocket.accept() *)
| SendText (data : string)              (* websocket.send_text(data) *)
| StartDriver                           (* async_playwright().__aenter__() *)
| StopDriver                            (* async_playwright().__aexit__() *)
| Launch (headless : bool)              (* p.chromium.launch(headless=...) *)
| NewPage                               (* browser.new_page() *)
| ExposeFunction (name : string)        (* page.expose_function(name, f) *)
| Goto (url : string)                   (* page.goto(url, ...) *)
| Evaluate (script : string)            (* page.evaluate(script) *)
| PageContent                           (* page.content() *)
| BrowserClose                          (* browser.close() *)
| WaitForClose                          (* page.wait_for_event(close) *)
| PlannerStep (iteration : nat).        (* one run of the planner agent *)

Definition io (A : Type) : Type := (list effect * outcome A)%type.

Definition io_ret {A : Type} (v : A) : io A := ([], Ret v).

Definition io_raise {A : Type} (e : exception) : io A := ([], Raise e).

Definition io_bind {A B : Type} (m : io A) (k : A -> io B) : io B :=
  match m with
  | (t, Ret v) => let '(t', r) := k v in ((t ++ t')%list, r)
  | (t, Raise e) => (t, Raise e)
  end.

(** One call into the outside world: the effect is recorded, the call
    ends as the outside world decides. *)
Definition perform {A : Type} (e : effect) (r : outcome A) : io A := ([e], r).

Definition print (line : string) : io unit := perform (Print line) (Ret tt).

(** [try: m except Exception as e: h e] *)
Definition try_except {A : Type} (m : io A) (h : exception -> io A) : io A :=
  match m with
  | (t, Ret v) => (t, Ret v)
  | (t, Raise e) => let '(t', r) := h e in ((t ++ t')%list, r)
  end.

(** [try: m finally: f] *)
Definition try_finally {A : Type} (m : io A) (f : io unit) : io A :=
  match m, f with
  | (t, r), (t', Ret _) => ((t ++ t')%list, r)
  | (t, _), (t', Raise e') => ((t ++ t')%list, Raise e')
  end.

Declare Scope io_scope.
Delimit Scope io_scope with io.
Notation "x <- m ;; k" := (io_bind m (fun x => k))
  (at level 100, m at next level, right associativity) : io_scope.
Notation "m ;;; k" := (io_bind m (fun _ => k))
  (at level 100, right associativity) : io_scope.

(** JSON documents, as FastAPI hands them to a handler. *)
Inductive json : Type :=
| JNull
| JBool (b : bool)
| JNum (n : Z)
| JStr (s : string)
| JArr (items : list json)
| JObj (members : list (string * json)).

(** What the interpreter provides: the salted string [hash] and
    [json.dumps]. Neither is fixed by the repository. *)
Class PythonRuntime : Type := {
  hash : string -> Z;
  json_dumps : json -> string
}.

(** [str(n)] for an integer. *)
Definition str_int (n : Z) : string := NilZero.string_of_int (Z.to_int n).

(** [s[:n]] *)
Definition str_prefix (n : nat) (s : string) : string := substring 0 n s.

(** ** [datetime] *)

Record datetime : Type := {
  year : N; month : N; day : N;
  hour : N; minute : N; second : N; microsecond : N
}.

Definition digits (n : N) : string := NilZero.string_of_uint (N.to_uint n).

Fixpoint zeros (n : nat) : string :=
  match n with
  | O => EmptyString
  | S n' => String "0"%char (zeros n')
  end.

(** ["%0wd" % n] *)
Definition pad0 (w : nat) (n : N) : string :=
  zeros (w - String.length (digits n)) +:+ digits n.

(** [datetime.isoformat(sep)] without the offset: the fraction is printed
    only when [microsecond] is not zero. *)
Definition isoformat_naive (sep : string) (d : datetime) : string :=
  pad0 4 (year d) +:+ "-" +:+ pad0 2 (month d) +:+ "-" +:+ pad0 2 (day d) +:+ sep +:+
  pad0 2 (hour d) +:+ ":" +:+ pad0 2 (minute d) +:+ ":" +:+ pad0 2 (second d) +:+
  (if N.eqb (microsecond d) 0 then "" else "." +:+ pad0 6 (microsecond d)).

(** [str(datetime.now())]: a naive local time. *)
Definition str_datetime (d : datetime) : string := isoformat_naive " " d.

(** [datetime.now(timezone.utc).isoformat()] *)
Definition isoformat_utc (d : datetime) : string := isoformat_naive "T" d +:+ "+00:00".

(** The two clock readings [create_task] takes. *)
Record clock : Type := {
  local_now : datetime;   (* datetime.now() *)
  utc_now : datetime      (* datetime.now(timezone.utc) *)
}.

(** ** API data models *)

Module Task.
Record t : Type := {
  id : string;
  user_id : string;
  title : string;
  notes : option string;
  url : option string;
  due_time : option string;
  repeat_rule : option string;
  priority : option string;
  is_flagged : bool;
  tags_csv : option string;
  early_reminder_offset_mins : option Z;
  status : string;
  is_training_required : bool;
  action_plan_json : option string;
  training_transcript : option string;
  creation_date : string;
  last_run_log : option string
}.
End Task.

Module CreateTaskRequest.
Record t : Type := {
  user_id : string;
  title : string;
  notes : option string;
  url : option string;
  due_time : option string;
  repeat_rule : option string;
  priority : option string;
  is_flagged : bool;
  tags_csv : option string;
  early_reminder_offset_mins : option Z;
  is_training_required : bool
}.
End CreateTaskRequest.

Module PushTokenRequest.
Record t : Type := {
  user_id : string;
  token : string
}.
End PushTokenRequest.

(** [Task(id=..., creation_date=..., status=..., **request.model_dump())] *)
Definition new_Task (id creation_date status : string) (request : CreateTaskRequest.t) : Task.t :=
  {| Task.id := id;
     Task.user_id := CreateTaskRequest.user_id request;
     Task.title := CreateTaskRequest.title request;
     Task.notes := CreateTaskRequest.notes request;
     Task.url := CreateTaskRequest.url request;
     Task.due_time := CreateTaskRequest.due_time request;
     Task.repeat_rule := CreateTaskRequest.repeat_rule request;
     Task.priority := CreateTaskRequest.priority request;
     Task.is_flagged := CreateTaskRequest.is_flagged request;
     Task.tags_csv := CreateTaskRequest.tags_csv request;
     Task.early_reminder_offset_mins := CreateTaskRequest.early_reminder_offset_mins request;
     Task.status := status;
     Task.is_training_required := CreateTaskRequest.is_training_required request;
     Task.action_plan_json := None;
     Task.training_transcript := None;
     Task.creation_date := creation_date;
     Task.last_run_log := None |}.

(** ** The SQLite database *)

Record Database : Type := {
  tasks : list Task.t;
  push_tokens : gmap string string
}.

Definition empty_db : Database := {| tasks := []; push_tokens := ∅ |}.

(** A [sqlite3] connection: statements act on [working]; only [commit]
    makes them durable, and [close] drops what was not committed. *)
Record Connection : Type := {
  committed : Database;
  working : Database
}.

Definition connect (db : Database) : Connection := {| committed := db; working := db |}.
Definition commit (c : Connection) : Connection := {| committed := working c; working := working c |}.
Definition close (c : Connection) : Database := committed c.

Definition with_tasks (c : Connection) (rows : list Task.t) : Connection :=
  {| committed := committed c;
     working := {| tasks := rows; push_tokens := push_tokens (working c) |} |}.

Definition with_push_tokens (c : Connection) (toks : gmap string string) : Connection :=
  {| committed := committed c;
     working := {| tasks := tasks (working c); push_tokens := toks |} |}.

Definition has_id (task_id : string) (r : Task.t) : bool := String.eqb (Task.id r) task_id.

(** What [sqlite3] can bind to a parameter of an INTEGER column: [None],
    or an [int] within the signed 64 bits of an SQLite integer. *)
Definition fits_int64 (n : Z) : bool := ((- 2 ^ 63 <=? n) && (n <? 2 ^ 63))%Z.

Definition binds_integer (v : option Z) : bool :=
  match v with
  | Some n => fits_int64 n
  | None => true
  end.

(** [cursor.execute(INSERT INTO tasks (...) VALUES (...), values)]. The
    values are bound before the statement runs: an [int] that does not fit
    raises OverflowError there; [early_reminder_offset_mins] is the one
    [int] among the values. Then the row is inserted; [id] is the primary
    key. *)
Definition insert_task (row : Task.t) (c : Connection) : outcome Connection :=
  if negb (binds_integer (Task.early_reminder_offset_mins row))
  then Raise (OtherException "OverflowError"
                "Python int too large to convert to SQLite INTEGER")
  else if existsb (has_id (Task.id row)) (tasks (working c))
  then Raise (IntegrityError "UNIQUE constraint failed: tasks.id")
  else Ret (with_tasks c (tasks (working c) ++ [row])).

(** [SELECT * FROM tasks WHERE user_id = ?] *)
Definition select_tasks_of_user (user_id : string) (db : Database) : list Task.t :=
  filter (fun r => Task.user_id r = user_id) (tasks db).

(** The row after [SET action_plan_json = ?, training_transcript = ?,
    status = 'trained']. *)
Definition set_training (plan transcript : string) (r : Task.t) : Task.t :=
  {| Task.id := Task.id r;
     Task.user_id := Task.user_id r;
     Task.title := Task.title r;
     Task.notes := Task.notes r;
     Task.url := Task.url r;
     Task.due_time := Task.due_time r;
     Task.repeat_rule := Task.repeat_rule r;
     Task.priority := Task.priority r;
     Task.is_flagged := Task.is_flagged r;
     Task.tags_csv := Task.tags_csv r;
     Task.early_reminder_offset_mins := Task.early_reminder_offset_mins r;
     Task.status := "trained";
     Task.is_training_required := Task.is_training_required r;
     Task.action_plan_json := Some plan;
     Task.training_transcript := Some transcript;
     Task.creation_date := Task.creation_date r;
     Task.last_run_log := Task.last_run_log r |}.

(** The row after [SET status = ?]. *)
Definition set_status (s : string) (r : Task.t) : Task.t :=
  {| Task.id := Task.id r;
     Task.user_id := Task.user_id r;
     Task.title := Task.title r;
     Task.notes := Task.notes r;
     Task.url := Task.url r;
     Task.due_time := Task.due_time r;
     Task.repeat_rule := Task.repeat_rule r;
     Task.priority := Task.priority r;
     Task.is_flagged := Task.is_flagged r;
     Task.tags_csv := Task.tags_csv r;
     Task.early_reminder_offset_mins := Task.early_reminder_offset_mins r;
     Task.status := s;
     Task.is_training_required := Task.is_training_required r;
     Task.action_plan_json := Task.action_plan_json r;
     Task.training_transcript := Task.training_transcript r;
     Task.creation_date := Task.creation_date r;
     Task.last_run_log := Task.last_run_log r |}.

(** [UPDATE tasks SET ... WHERE id = ?]: every row whose id matches is
    rewritten by [f]; the others are kept. *)
Definition update_where_id (f : Task.t -> Task.t) (task_id : string) (rows : list Task.t) : list Task.t :=
  map (fun r => if has_id task_id r then f r else r) rows.

(** [cursor.rowcount] after that UPDATE. *)
Definition rowcount (task_id : string) (rows : list Task.t) : nat :=
  length (List.filter (has_id task_id) rows).

Definition update_tasks (f : Task.t -> Task.t) (task_id : string) (c : Connection) : Connection * nat :=
  (with_tasks c (update_where_id f task_id (tasks (working c))),
   rowcount task_id (tasks (working c))).

(** [SELECT * FROM tasks WHERE id = ?], first row. *)
Definition get_task (task_id : string) (db : Database) : option Task.t :=
  List.find (has_id task_id) (tasks db).

(** ** Task endpoints ([main.py]) *)

Section Endpoints.
Context `{PythonRuntime}.

(** ["task_" + str(hash(request.title + str(datetime.now())))[:8]] *)
Definition new_task_id (title : string) (now : datetime) : string :=
  "task_" +:+ str_prefix 8 (str_int (hash (title +:+ str_datetime now))).

(** [POST /tasks]. An exception from the INSERT leaves the handler before
    [db.commit()]. *)
Definition create_task (request : CreateTaskRequest.t) (clk : clock) (db : Database)
  : outcome Task.t * Database :=
  let conn := connect db in
  let new_task := new_Task (new_task_id (CreateTaskRequest.title request) (local_now clk))
                           (isoformat_utc (utc_now clk)) "pending" request in
  match insert_task new_task conn with
  | Raise e => (Raise e, close conn)
  | Ret conn => (Ret new_task, close (commit conn))
  end.

(** [GET /tasks/{user_id}] *)
Definition list_tasks_for_user (user_id : string) (db : Database) : list Task.t :=
  select_tasks_of_user user_id db.

(** [POST /tasks/{task_id}/complete_training] *)
Definition complete_task_training (task_id : string) (action_plan : list json) (transcript : string)
    (db : Database) : outcome (gmap string string) * Database :=
  let conn := connect db in
  let action_plan_str := json_dumps (JArr action_plan) in
  let '(conn, n) := update_tasks (set_training action_plan_str transcript) task_id conn in
  if Nat.eqb n 0
  then (Raise (HTTPException 404 "Task not found"), close conn)
  else (Ret (<["status" := "success"]> (<["task_id" := task_id]> ∅)), close (commit conn)).

(** [POST /register-push-token]: [INSERT OR REPLACE]. *)
Definition register_push_token (request : PushTokenRequest.t) (db : Database)
  : gmap string string * Database :=
  let conn := connect db in
  let conn := with_push_tokens conn
                (<[PushTokenRequest.user_id request := PushTokenRequest.token request]>
                   (push_tokens (working conn))) in
  (<["status" := "success"]> ∅, close (commit conn)).

End Endpoints.

(** ** Reminder scheduler ([check_reminders]) *)

(** [messaging.Message(notification=messaging.Notification(title, body), token)] *)
Record Message : Type := {
  notification_title : string;
  notification_body : string;
  token : string
}.

(** One [messaging.send] call, tagged with the task the loop was handling. *)
Definition delivery : Type := (string * Message)%type.

(** The push provider: given the calls made so far and the message, the
    send returns or raises. *)
Definition provider : Type := list delivery -> Message -> outcome unit.

(** The database together with the calls made to the provider. *)
Record World : Type := {
  db : Database;
  sent : list delivery
}.

(** [due_time <= ? AND status = 'pending']: TEXT columns under SQLite's
    BINARY collation, so [<=] is the byte-wise order of the two strings; a
    NULL [due_time] never satisfies the comparison. *)
Definition is_due (current_time_iso : string) (r : Task.t) : bool :=
  match Task.due_time r with
  | Some d => String.leb d current_time_iso && String.eqb (Task.status r) "pending"
  | None => false
  end.

(** [SELECT id, user_id, title FROM tasks WHERE due_time <= ? AND status = 'pending'] *)
Definition select_due_reminders (current_time_iso : string) (database : Database)
  : list (string * string * string) :=
  map (fun r => (Task.id r, Task.user_id r, Task.title r))
      (List.filter (is_due current_time_iso) (tasks database)).

(** The body of [for task_id, user_id, title in due_reminders]. *)
Fixpoint notify_each (send : provider) (due_reminders : list (string * string * string))
    (conn : Connection) (log : list delivery) : Connection * list delivery :=
  match due_reminders with
  | [] => (conn, log)
  | (task_id, user_id, title) :: rest =>
      match push_tokens (working conn) !! user_id with
      | Some push_token =>
          let message := {| notification_title := "Remo Reminder!";
                            notification_body := title;
                            token := push_token |} in
          match send log message with
          | Ret _ =>
              let conn := commit (fst (update_tasks (set_status "notified") task_id conn)) in
              notify_each send rest conn (log ++ [(task_id, message)])
          | Raise _ =>
              notify_each send rest conn (log ++ [(task_id, message)])
          end
      | None => notify_each send rest conn log
      end
  end.

(** One run of [check_reminders] at clock reading [now]. *)
Definition check_reminders (send : provider) (now : datetime) (w : World) : World :=
  let conn := connect (db w) in
  let current_time_iso := isoformat_utc now in
  let due_reminders := select_due_reminders current_time_iso (working conn) in
  match due_reminders with
  | [] => {| db := close conn; sent := sent w |}
  | _ =>
      let '(conn, log) := notify_each send due_reminders conn (sent w) in
      {| db := close conn; sent := log |}
  end.

(** [@repeat_every(seconds=60)]: one run per period, each with its own
    clock reading. *)
Definition repeat_check_reminders (send : provider) (nows : list datetime) (w : World) : World :=
  fold_left (fun w now => check_reminders send now w) nows w.

(** ** Sequences of operations on the store *)

Inductive operation : Type :=
| Create (request : CreateTaskRequest.t) (clk : clock)
| CompleteTraining (task_id : string) (action_plan : list json) (transcript : string)
| RegisterPushToken (request : PushTokenRequest.t)
| Tick (now : datetime).

Section Operations.
Context `{PythonRuntime}.
Variable send : provider.

Definition run_operation (w : World) (op : operation) : World :=
  match op with
  | Create request clk =>
      {| db := snd (create_task request clk (db w)); sent := sent w |}
  | CompleteTraining task_id action_plan transcript =>
      {| db := snd (complete_task_training task_id action_plan transcript (db w)); sent := sent w |}
  | RegisterPushToken request =>
      {| db := snd (register_push_token request (db w)); sent := sent w |}
  | Tick now => check_reminders send now w
  end.

Definition run_operations (ops : list operation) (w : World) : World :=
  fold_left run_operation ops w.

End Operations.

(** ** Tools ([tools.py]) *)

(** [tool_context.actions] *)
Record ToolContext : Type := {
  escalate : bool
}.

(** [finish_task(reason, tool_context)]: sets [escalate], which tells the
    loop agent to stop. *)
Definition finish_task (reason : string) (tool_context : ToolContext)
  : gmap string string * ToolContext :=
  (<["status" := "finished"]> (<["reason" := reason]> ∅), {| escalate := true |}).

(** The Playwright driver: how each call ends. [content] is the HTML of
    the page the browser is on; [emitted] are the DOM events the page hands
    to the exposed function until the user closes it. *)
Record Driver : Type := {
  start : outcome unit;
  stop : outcome unit;
  launch : bool -> outcome unit;
  new_page : outcome unit;
  expose_function : string -> outcome unit;
  goto : string -> outcome unit;
  evaluate : string -> outcome unit;
  content : string -> outcome string;
  browser_close : outcome unit;
  emitted : string -> list json;
  wait_for_close : outcome unit
}.

(** [async with async_playwright() as p: body] *)
Definition with_playwright {A : Type} (drv : Driver) (body : io A) : io A :=
  (perform StartDriver (start drv);;;
   try_finally body (perform StopDriver (stop drv)))%io.

Section Tools.
Context `{PythonRuntime}.

Definition use_browser_and_get_content (drv : Driver) (url : string) : io (gmap string string) :=
  (print ("--- Browser Tool Activated (Async): Navigating to " +:+ url +:+ " ---");;;
   try_except
     (with_playwright drv
        (perform (Launch true) (launch drv true);;;
         perform NewPage (new_page drv);;;
         perform (Goto url) (goto drv url);;;
         print ("--- Browser Tool: Successfully navigated to " +:+ url +:+ " ---");;;
         page_content <- perform PageContent (content drv url);;
         perform BrowserClose (browser_close drv);;;
         io_ret (<["status" := "success"]> (<["html_content" := page_content]> ∅))))
     (fun e =>
        print ("--- Browser Tool: A critical error occurred: " +:+ str_exc e +:+ " ---");;;
        io_ret (<["status" := "error"]> (<["message" := str_exc e]> ∅))))%io.

(** The script that starts the recorder in the page. *)
Definition record_script : string := "
            rrweb.record({
                emit(event) { window.send_event_to_backend(event); },
            });
        ".

(** [send_event_to_frontend], called once per emitted event. *)
Fixpoint forward_events (events : list json) : io unit :=
  match events with
  | [] => io_ret tt
  | event :: rest =>
      (perform (SendText (json_dumps event)) (Ret tt);;; forward_events rest)%io
  end.

(** [start_interactive_session(url, websocket)]. [rrweb_js] is how
    [open(rrweb.js).read()] ends. The client stays connected, so
    [send_text] returns. *)
Definition start_interactive_session (rrweb_js : outcome string) (drv : Driver) (url : string)
  : io unit :=
  (print ("--- Recorder Tool: Starting interactive session for URL: " +:+ url +:+ " ---");;;
   match rrweb_js with
   | Raise (FileNotFoundError _) =>
       perform (SendText (json_dumps (JObj [("error", JStr "rrweb.js not found on server")])))
               (Ret tt)
   | Raise e => io_raise e
   | Ret rrweb_script_content =>
       with_playwright drv
         (perform (Launch false) (launch drv false);;;
          perform NewPage (new_page drv);;;
          perform (ExposeFunction "send_event_to_backend")
                  (expose_function drv "send_event_to_backend");;;
          perform (Goto url) (goto drv url);;;
          perform (Evaluate rrweb_script_content) (evaluate drv rrweb_script_content);;;
          perform (Evaluate record_script) (evaluate drv record_script);;;
          print "--- Recorder Tool: rrweb injected. Streaming events to WebSocket. ---";;;
          forward_events (emitted drv url);;;
          perform WaitForClose (wait_for_close drv);;;
          print ("Browser closed for session on " +:+ url +:+ "."))
   end)%io.

(** ** Recording endpoint ([main.py]) *)

(** [WS /ws/record/{task_id}/{user_id}] *)
Definition websocket_record_session (rrweb_js : outcome string) (drv : Driver)
    (task_id user_id : string) : io unit :=
  (perform Accept (Ret tt);;;
   print ("API: WebSocket connection accepted for task " +:+ task_id);;;
   let start_url := "https://google.github.io/adk-docs/" in
   try_finally
     (try_except
        (start_interactive_session rrweb_js drv start_url)
        (fun e => print ("WebSocket session for task " +:+ task_id +:+
                         " encountered an error: " +:+ str_exc e)))
     (print ("WebSocket connection for task " +:+ task_id +:+ " closed.")))%io.

End Tools.

(** ** Thinker loop ([agents.py]) *)

(** What one run of the planner agent decides: its two tools are
    [use_browser_and_get_content] and [finish_task]. *)
Inductive Action : Type :=
| Fetch (url : string)
| Finish (reason : string).

Inductive Observation : Type :=
| NoObservation
| Observed (result : gmap string string).

(** The session state [execute_thinker_task] creates. *)
Record Session : Type := {
  user_goal : string;
  start_url : string;
  page_observation : Observation
}.

Definition new_session (goal url : string) : Session :=
  {| user_goal := goal; start_url := url; page_observation := NoObservation |}.

Definition observe (o : Observation) (s : Session) : Session :=
  {| user_goal := user_goal s; start_url := start_url s; page_observation := o |}.

(** The language model behind the planner: its answer may change from one
    iteration to the next, also on the same goal and observation. *)
Definition planner : Type := nat -> string -> Observation -> Action.

Inductive LoopResult : Type :=
| Finished (reason : string) (s : Session)
| CapReached (s : Session).

Section Agents.
Context `{PythonRuntime}.
Variable planner_agent : planner.
Variable browser : nat -> Driver.

(** Modelled from the spec: the run loop of [LoopAgent], which belongs to
    the agent framework and is not in the repository. Section 4.5: call the
    Planner Step on the current state; on Finish stop with the reason; on
    Fetch call the Browser Action Tool and keep its result as the
    observation; after [max_iterations] rounds stop and report the last
    state. Finish is the tool [finish_task], whose [escalate] flag is what
    stops the loop. *)
Fixpoint loop_agent (max_iterations iteration : nat) (s : Session) : io LoopResult :=
  match max_iterations with
  | O => io_ret (CapReached s)
  | S remaining =>
      (action <- perform (PlannerStep iteration)
                   (Ret (planner_agent iteration (user_goal s) (page_observation s)));;
       match action with
       | Finish reason =>
           let '(_, tool_context) := finish_task reason {| escalate := false |} in
           if escalate tool_context
           then io_ret (Finished reason s)
           else loop_agent remaining (S iteration) s
       | Fetch url =>
           result <- use_browser_and_get_content (browser iteration) url;;
           loop_agent remaining (S iteration) (observe (Observed result) s)
       end)%io
  end.

(** [LoopAgent(name=ThinkerAgent, sub_agents=[planner_agent], max_iterations=5)] *)
Definition max_iterations : nat := 5.

Definition thinker_agent (s : Session) : io LoopResult := loop_agent max_iterations 0 s.

End Agents.

(** ** Reading a trace *)

Definition is_planner_step (e : effect) : bool :=
  match e with PlannerStep _ => true | _ => false end.

Definition planner_calls (trace : list effect) : nat :=
  length (List.filter is_planner_step trace).

Definition is_console (e : effect) : bool :=
  match e with Print _ => true | _ => false end.

(** What the client and the browser see: everything but the console. *)
Definition without_console (trace : list effect) : list effect :=
  List.filter (fun e => negb (is_console e)) trace.

Definition navigations (trace : list effect) : list string :=
  omap (fun e => match e with Goto url => Some url | _ => None end) trace.

Definition frames_sent (trace : list effect) : list string :=
  omap (fun e => match e with SendText data => Some data | _ => None end) trace.

Definition opens_browser (e : effect) : bool :=
  match e with StartDriver | Launch _ | NewPage => true | _ => false end.

(** ** Properties of the store stated in the theorems *)

(** The primary key of [tasks]: no two rows share an id. *)
Definition primary_key (database : Database) : Prop :=
  NoDup (map Task.id (tasks database)).

(** Every column but [action_plan_json], [training_transcript] and
    [status] agrees. *)
Definition same_other_columns (r r' : Task.t) : Prop :=
  Task.id r' = Task.id r /\
  Task.user_id r' = Task.user_id r /\
  Task.title r' = Task.title r /\
  Task.notes r' = Task.notes r /\
  Task.url r' = Task.url r /\
  Task.due_time r' = Task.due_time r /\
  Task.repeat_rule r' = Task.repeat_rule r /\
  Task.priority r' = Task.priority r /\
  Task.is_flagged r' = Task.is_flagged r /\
  Task.tags_csv r' = Task.tags_csv r /\
  Task.early_reminder_offset_mins r' = Task.early_reminder_offset_mins r /\
  Task.is_training_required r' = Task.is_training_required r /\
  Task.creation_date r' = Task.creation_date r /\
  Task.last_run_log r' = Task.last_run_log r.

(** All byte strings of length at most [n]: the values [s[:n]] can take. *)
Definition all_ascii : list ascii := map ascii_of_nat (seq 0 256).

Fixpoint strings_upto (n : nat) : list string :=
  match n with
  | O => [EmptyString]
  | S n' =>
      EmptyString :: flat_map (fun s => map (fun c => String c s) all_ascii) (strings_upto n')
  end.

(** The status changes the handlers and the scheduler make: keep it, set
    it to trained, or move a pending task to notified. *)
Definition status_step (s s' : string) : Prop :=
  s' = s \/ s' = "trained" \/ (s = "pending" /\ s' = "notified").

(** The order the spec gives the statuses:
    pending, then trained, then notified. *)
Definition status_rank (s : string) : nat :=
  if String.eqb s "pending" then 0
  else if String.eqb s "trained" then 1
  else 2.

(** What a tick may do to a row: nothing, or mark a pending task whose
    owner has a token as notified. *)
Definition tick_step (toks : gmap string string) (r r' : Task.t) : Prop :=
  r' = r \/
  (r' = set_status "notified" r /\ Task.status r = "pending" /\
   is_Some (toks !! Task.user_id r)).

(** The deliveries made for one task. *)
Definition deliveries_for (task_id : string) (log : list delivery) : list delivery :=
  List.filter (fun d => String.eqb (fst d) task_id) log.

(** The two dictionaries [use_browser_and_get_content] returns. *)
Definition success_result (html_content : string) : gmap string string :=
  <["status" := "success"]> (<["html_content" := html_content]> ∅).

Definition error_result (message : string) : gmap string string :=
  <["status" := "error"]> (<["message" := message]> ∅).

(** [e] is raised by one of the driver calls the browser tool makes. *)
Definition browser_failure (drv : Driver) (url : string) (e : exception) : Prop :=
  start drv = Raise e \/ launch drv true = Raise e \/ new_page drv = Raise e \/
  goto drv url = Raise e \/ content drv url = Raise e \/ browser_close drv = Raise e \/
  stop drv = Raise e.

(** The frame the recorder sends when [rrweb.js] is missing. *)
Definition missing_script_frame `{PythonRuntime} : string :=
  json_dumps (JObj [("error", JStr "rrweb.js not found on server")]).

(** The planner never calls [finish_task]. *)
Definition never_finishes (p : planner) : Prop :=
  forall (iteration : nat) (goal : string) (o : Observation),
    exists url, p iteration goal o = Fetch url.

(** ** Due times read as instants *)












(** ** Notions used by further properties *)

(** A run of creations, one after the other, each on the store the
    previous one left. *)
Fixpoint create_all `{PythonRuntime} (requests : list (CreateTaskRequest.t * clock))
    (database : Database) : list (outcome Task.t) * Database :=
  match requests with
  | [] => ([], database)
  | (request, clk) :: rest =>
      let '(result, database) := create_task request clk database in
      let '(results, database) := create_all rest database in
      (result :: results, database)
  end.

(** Whether a call raised. *)
Definition is_raise {A : Type} (o : outcome A) : bool :=
  match o with Raise _ => true | Ret _ => false end.

(** The id and the owner of each row, in store order. *)
Definition row_keys (rows : list Task.t) : list (string * string) :=
  map (fun r => (Task.id r, Task.user_id r)) rows.

(** The three statuses the code writes. *)
Definition known_status (s : string) : Prop :=
  s = "pending" \/ s = "trained" \/ s = "notified".

(** A row as the handlers make it: a known status and a generated id. *)
Definition well_formed_row (r : Task.t) : Prop :=
  known_status (Task.status r) /\
  exists suffix, Task.id r = "task_" +:+ suffix /\ 1 <= String.length suffix <= 8.

(** The primary key holds and every row is well formed. *)
Definition well_formed_store (database : Database) : Prop :=
  primary_key database /\ Forall well_formed_row (tasks database).

(** The message the scheduler builds for a reminder. *)
Definition reminder_message (title push_token : string) : Message :=
  {| notification_title := "Remo Reminder!";
     notification_body := title;
     token := push_token |}.

(** The provider call made for one due reminder: none when its owner has
    no token. *)
Definition reminder_call (toks : gmap string string) (x : string * string * string)
  : option delivery :=
  match toks !! x.1.2 with
  | Some push_token => Some (x.1.1, reminder_message x.2 push_token)
  | None => None
  end.

(** The ids of the due reminders whose send returned, in loop order. *)
Fixpoint delivered (send : provider) (toks : gmap string string)
    (due_reminders : list (string * string * string)) (log : list delivery) : list string :=
  match due_reminders with
  | [] => []
  | x :: rest =>
      match reminder_call toks x with
      | Some call =>
          match send log call.2 with
          | Ret _ => x.1.1 :: delivered send toks rest (log ++ [call])
          | Raise _ => delivered send toks rest (log ++ [call])
          end
      | None => delivered send toks rest log
      end
  end.

(** [SET status = notified] on the rows whose id is in [ids]. *)
Definition mark_notified (ids : list string) (r : Task.t) : Task.t :=
  if existsb (String.eqb (Task.id r)) ids then set_status "notified" r else r.

(** Whether the owner of a row has a row in [push_tokens]. *)
Definition has_token (toks : gmap string string) (r : Task.t) : bool :=
  match toks !! Task.user_id r with Some _ => true | None => false end.

(** Equality test on the effects that carry no argument. *)
Definition is_effect (e : effect) (e' : effect) : bool :=
  match e, e' with
  | StartDriver, StartDriver | StopDriver, StopDriver | NewPage, NewPage
  | PageContent, PageContent | BrowserClose, BrowserClose | WaitForClose, WaitForClose
  | Accept, Accept => true
  | _, _ => false
  end.

(** How often a driver call without arguments occurs in a trace. *)
Definition occurrences (e : effect) (trace : list effect) : nat :=
  length (List.filter (is_effect e) trace).

(** The [headless] flags of the browsers launched. *)
Definition launches (trace : list effect) : list bool :=
  omap (fun e => match e with Launch headless => Some headless | _ => None end) trace.

(** ** Execute endpoints ([main.py]) *)

(** What the execute handlers read of an event of the runner: whether
    [event.is_final_response()] holds, and how [event.content.parts[0].text]
    evaluates: a string, [None], or an exception (an event without
    content, a content without parts). *)
Record Event : Type := {
  is_final_response : bool;
  first_part_text : outcome (option string)
}.

(** The events a run yields, and the exception that ends the iteration if
    the runner fails after them. *)
Record Run : Type := {
  yielded : list Event;
  failure : option exception
}.

(** [async for event in events: if event.is_final_response():
    final_result = event.content.parts[0].text] *)
Fixpoint collect_final_result (final_result : option string) (events : list Event)
    (failure : option exception) : outcome (option string) :=
  match events with
  | [] => match failure with
          | Some e => Raise e
          | None => Ret final_result
          end
  | event :: rest =>
      if is_final_response event
      then match first_part_text event with
           | Ret text => collect_final_result text rest failure
           | Raise e => Raise e
           end
      else collect_final_result final_result rest failure
  end.

(** A Python [str | None] in a JSON reply. *)
Definition json_of_text (text : option string) : json :=
  match text with
  | Some s => JStr s
  | None => JNull
  end.

(** [POST /execute/browse]: [session_id] is the id of the session the
    service created, [run] what [browse_runner.run_async] does. *)
Definition execute_browse_task (session_id : string) (run : Run) : outcome (gmap string json) :=
  match collect_final_result (Some "Agent did not produce a final response.")
          (yielded run) (failure run) with
  | Ret final_result =>
      Ret (<["status" := JStr "completed"]>
             (<["session_id" := JStr session_id]>
                (<["agent_result" := json_of_text final_result]> ∅)))
  | Raise e => Raise e
  end.

(** [POST /execute/think] *)
Definition execute_thinker_task (session_id : string) (run : Run) : outcome (gmap string json) :=
  match collect_final_result (Some "Thinker agent finished without a final text response.")
          (yielded run) (failure run) with
  | Ret final_result =>
      Ret (<["status" := JStr "completed"]>
             (<["final_result" := json_of_text final_result]>
                (<["session_id" := JStr session_id]> ∅)))
  | Raise e => Raise e
  end.

(** Every final-response event of the list has a text that can be read. *)
Definition finals_readable (events : list Event) : Prop :=
  Forall (fun event => is_final_response event = true ->
                       exists text, first_part_text event = Ret text) events.

(** No event of the list is a final response. *)
Definition no_final (events : list Event) : Prop :=
  Forall (fun event => is_final_response event = false) events.

(** ** Sample data *)

(** A multiplicative string hash on 64-bit signed integers, in the style
    of the unsalted hash of older interpreters. *)
Definition wrap64 (z : Z) : Z := ((z + 2 ^ 63) mod 2 ^ 64 - 2 ^ 63)%Z.

Fixpoint hash_bytes (x : Z) (s : string) : Z :=
  match s with
  | EmptyString => x
  | String c s' => hash_bytes (Z.lxor (1000003 * x) (Z.of_N (N_of_ascii c)) mod 2 ^ 64)%Z s'
  end.

Definition sample_hash (s : string) : Z :=
  match s with
  | EmptyString => 0%Z
  | String c _ =>
      wrap64 (Z.lxor (hash_bytes (Z.shiftl (Z.of_N (N_of_ascii c)) 7) s)
                     (Z.of_nat (String.length s)))
  end.

Definition quote : string := String "034"%char EmptyString.

(** A compact serializer (no escaping), enough for the samples. *)
Fixpoint sample_dumps (j : json) : string :=
  match j with
  | JNull => "null"
  | JBool true => "true"
  | JBool false => "false"
  | JNum n => str_int n
  | JStr s => quote +:+ s +:+ quote
  | JArr items => "[" +:+ String.concat ", " (map sample_dumps items) +:+ "]"
  | JObj members =>
      "{" +:+ String.concat ", "
                (map (fun kv => match kv with
                                | (k, v) => quote +:+ k +:+ quote +:+ ": " +:+ sample_dumps v
                                end) members) +:+ "}"
  end.

Definition sample_runtime : PythonRuntime :=
  {| hash := sample_hash; json_dumps := sample_dumps |}.

Definition at_time (h m sec us : N) : datetime :=
  {| year := 2025; month := 3; day := 1; hour := h; minute := m; second := sec;
     microsecond := us |}.

Definition sample_clock : clock :=
  {| local_now := at_time 10 0 0 250000; utc_now := at_time 9 0 0 250000 |}.

(** A reminder that was due one second before nine. *)
Definition sample_request : CreateTaskRequest.t :=
  {| CreateTaskRequest.user_id := "alice";
     CreateTaskRequest.title := "Pay rent";
     CreateTaskRequest.notes := None;
     CreateTaskRequest.url := Some "https://bank.example/";
     CreateTaskRequest.due_time := Some "2025-03-01T08:59:59+00:00";
     CreateTaskRequest.repeat_rule := None;
     CreateTaskRequest.priority := None;
     CreateTaskRequest.is_flagged := false;
     CreateTaskRequest.tags_csv := None;
     CreateTaskRequest.early_reminder_offset_mins := None;
     CreateTaskRequest.is_training_required := false |}.

Definition sample_token : PushTokenRequest.t :=
  {| PushTokenRequest.user_id := "alice"; PushTokenRequest.token := "fcm-token-1" |}.

(** A provider that delivers every message, and one that is down. *)
Definition always_delivers : provider := fun _ _ => Ret tt.
Definition always_fails : provider := fun _ _ => Raise (FirebaseError "unavailable").

Definition sample_row (id user_id due status : string) : Task.t :=
  new_Task id "2025-03-01T08:00:00+00:00" status
    {| CreateTaskRequest.user_id := user_id;
       CreateTaskRequest.title := "Reminder " +:+ id;
       CreateTaskRequest.notes := None;
       CreateTaskRequest.url := None;
       CreateTaskRequest.due_time := if String.eqb due "" then None else Some due;
       CreateTaskRequest.repeat_rule := None;
       CreateTaskRequest.priority := None;
       CreateTaskRequest.is_flagged := false;
       CreateTaskRequest.tags_csv := None;
       CreateTaskRequest.early_reminder_offset_mins := None;
       CreateTaskRequest.is_training_required := false |}.

(** Bob has no push token. *)
Definition bobs_task : Task.t := sample_row "task_1" "bob" "2025-03-01T08:59:59+00:00" "pending".

Definition sample_db : Database :=
  {| tasks := [ bobs_task;
                sample_row "task_2" "alice" "2025-03-01T08:30:00+00:00" "pending";
                sample_row "task_3" "alice" "2025-03-02T08:00:00+00:00" "pending";
                sample_row "task_4" "alice" "2025-03-01T08:00:00+00:00" "trained";
                sample_row "task_5" "alice" "2025-03-01T08:00:00+00:00" "notified";
                sample_row "task_6" "alice" "" "pending" ];
     push_tokens := <["alice" := "fcm-token-1"]> ∅ |}.

Definition sample_world : World := {| db := sample_db; sent := [] |}.

Definition empty_world : World := {| db := empty_db; sent := [] |}.

(** A driver on which everything works, and one whose start fails the way
    a missing subprocess transport does: [NotImplementedError()], whose text
    is empty. *)
Definition working_driver : Driver :=
  {| start := Ret tt; stop := Ret tt; launch := fun _ => Ret tt; new_page := Ret tt;
     expose_function := fun _ => Ret tt; goto := fun _ => Ret tt;
     evaluate := fun _ => Ret tt; content := fun url => Ret ("<html>" +:+ url +:+ "</html>");
     browser_close := Ret tt; emitted := fun _ => [JObj [("type", JNum 4)]];
     wait_for_close := Ret tt |}.

Definition unsupported_driver : Driver :=
  {| start := Raise (OtherException "NotImplementedError" ""); stop := Ret tt;
     launch := fun _ => Ret tt; new_page := Ret tt;
     expose_function := fun _ => Ret tt; goto := fun _ => Ret tt;
     evaluate := fun _ => Ret tt; content := fun _ => Ret "";
     browser_close := Ret tt; emitted := fun _ => [];
     wait_for_close := Ret tt |}.

(** A planner that always asks for the same page. *)
Definition always_fetch : planner := fun _ _ _ => Fetch "https://news.ycombinator.com/".

(** The task the sample request creates at the sample clock reading, and
    the store after that creation. *)
Definition sample_task : Task.t :=
  new_Task "task_-4649669" "2025-03-01T09:00:00.250000+00:00" "pending" sample_request.

Definition sample_db_after_create : Database :=
  {| tasks := [sample_task]; push_tokens := ∅ |}.

Definition second_request : CreateTaskRequest.t :=
  {| CreateTaskRequest.user_id := "bob";
     CreateTaskRequest.title := "Call the landlord";
     CreateTaskRequest.notes := Some "about the heating";
     CreateTaskRequest.url := None;
     CreateTaskRequest.due_time := None;
     CreateTaskRequest.repeat_rule := None;
     CreateTaskRequest.priority := Some "high";
     CreateTaskRequest.is_flagged := true;
     CreateTaskRequest.tags_csv := None;
     CreateTaskRequest.early_reminder_offset_mins := Some 15%Z;
     CreateTaskRequest.is_training_required := true |}.

(** Alice's reminder that is due, pending and has a token, and her
    reminder that was already delivered. *)
Definition alices_task : Task.t :=
  sample_row "task_2" "alice" "2025-03-01T08:30:00+00:00" "pending".

Definition delivered_task : Task.t :=
  sample_row "task_5" "alice" "2025-03-01T08:00:00+00:00" "notified".

(** A driver that cannot resolve the host. *)
Definition unreachable_driver : Driver :=
  {| start := Ret tt; stop := Ret tt; launch := fun _ => Ret tt; new_page := Ret tt;
     expose_function := fun _ => Ret tt;
     goto := fun url => Raise (PlaywrightError ("net::ERR_NAME_NOT_RESOLVED at " +:+ url));
     evaluate := fun _ => Ret tt; content := fun _ => Ret "";
     browser_close := Ret tt; emitted := fun _ => [];
     wait_for_close := Ret tt |}.

(** Events of a run: a tool call (not final, no text), a final answer, and
    a final event without content. *)
Definition tool_call_event : Event :=
  {| is_final_response := false; first_part_text := Ret None |}.

Definition answer_event (text : string) : Event :=
  {| is_final_response := true; first_part_text := Ret (Some text) |}.

Definition broken_event : Event :=
  {| is_final_response := true;
     first_part_text := Raise (OtherException "AttributeError"
                                 "NoneType object has no attribute parts") |}.




(** ** Proof automation *)

(** Case analysis on how each driver call of the browser tool ends. *)
Ltac driver_cases drv url :=
  destruct (start drv) as [[]|?] eqn:?;
  destruct (launch drv true) as [[]|?] eqn:?;
  destruct (new_page drv) as [[]|?] eqn:?;
  destruct (goto drv url) as [[]|?] eqn:?;
  destruct (content drv url) as [?|?] eqn:?;
  destruct (browser_close drv) as [[]|?] eqn:?;
  destruct (stop drv) as [[]|?] eqn:?.

(** * Proofs *)

(** ** Rows and ids *)

Lemma has_id_true (task_id : string) (r : Task.t) :
  has_id task_id r = true <-> Task.id r = task_id.
Proof. unfold has_id. apply String.eqb_eq. Qed.

Lemma has_id_false (task_id : string) (r : Task.t) :
  has_id task_id r = false <-> Task.id r <> task_id.
Proof. unfold has_id. apply String.eqb_neq. Qed.

Lemma rowcount_zero (task_id : string) (rows : list Task.t) :
  rowcount task_id rows = 0 <-> Forall (fun r => Task.id r <> task_id) rows.
Proof.
  unfold rowcount. induction rows as [|r rows IH]; simpl.
  - split; [constructor | reflexivity].
  - destruct (has_id task_id r) eqn:E; simpl.
    + split; [discriminate |].
      intros Hall. inversion Hall as [|? ? Hr _]; subst.
      apply has_id_true in E. contradiction.
    + rewrite IH. apply has_id_false in E. split.
      * intros Hall. constructor; assumption.
      * intros Hall. inversion Hall; assumption.
Qed.

Lemma update_where_id_absent (f : Task.t -> Task.t) (task_id : string) (rows : list Task.t) :
  Forall (fun r => Task.id r <> task_id) rows -> update_where_id f task_id rows = rows.
Proof.
  unfold update_where_id. induction 1 as [|r rows Hr _ IH]; simpl; [reflexivity|].
  apply has_id_false in Hr. rewrite Hr, IH. reflexivity.
Qed.

Lemma get_task_none (task_id : string) (database : Database) :
  get_task task_id database = None <-> Forall (fun r => Task.id r <> task_id) (tasks database).
Proof.
  unfold get_task. induction (tasks database) as [|r rows IH]; simpl.
  - split; [constructor | reflexivity].
  - destruct (has_id task_id r) eqn:E.
    + split; [discriminate |].
      intros Hall. inversion Hall; subst. apply has_id_true in E. contradiction.
    + rewrite IH. apply has_id_false in E. split.
      * intros Hall. constructor; assumption.
      * intros Hall. inversion Hall; assumption.
Qed.

Lemma update_where_id_ids (f : Task.t -> Task.t) (task_id : string) (rows : list Task.t) :
  (forall r, Task.id (f r) = Task.id r) ->
  map Task.id (update_where_id f task_id rows) = map Task.id rows.
Proof.
  intros Hf. unfold update_where_id. induction rows as [|r rows IH]; simpl; [reflexivity|].
  rewrite IH. destruct (has_id task_id r); [rewrite Hf|]; reflexivity.
Qed.

Lemma update_where_id_lookup (f : Task.t -> Task.t) (task_id : string) (rows : list Task.t)
    (i : nat) (r : Task.t) :
  rows !! i = Some r ->
  update_where_id f task_id rows !! i = Some (if has_id task_id r then f r else r).
Proof.
  intros Hi. unfold update_where_id. rewrite list_lookup_fmap, Hi. reflexivity.
Qed.

(** ** complete_training *)

Section StoreProofs.
Context `{PythonRuntime}.

(** No row has the id: the UPDATE matches nothing and the handler leaves
    without a commit. *)
Lemma complete_training_absent (task_id : string) (action_plan : list json)
    (transcript : string) (database : Database) :
  Forall (fun r => Task.id r <> task_id) (tasks database) ->
  complete_task_training task_id action_plan transcript database
  = (Raise (HTTPException 404 "Task not found"), database).
Proof.
  intros Hnone. unfold complete_task_training, update_tasks. simpl.
  apply rowcount_zero in Hnone. rewrite Hnone. reflexivity.
Qed.

Lemma complete_training_known (task_id : string) (action_plan : list json)
    (transcript : string) (database : Database) (r : Task.t) :
  get_task task_id database = Some r ->
  complete_task_training task_id action_plan transcript database
  = (Ret (<["status" := "success"]> (<["task_id" := task_id]> ∅)),
     {| tasks := update_where_id (set_training (json_dumps (JArr action_plan)) transcript)
                   task_id (tasks database);
        push_tokens := push_tokens database |}).
Proof.
  intros Hsome. unfold complete_task_training, update_tasks. simpl.
  destruct (rowcount task_id (tasks database)) eqn:E; [|reflexivity].
  apply rowcount_zero, get_task_none in E. congruence.
Qed.

Lemma complete_training_tasks (task_id : string) (action_plan : list json)
    (transcript : string) (database : Database) :
  snd (complete_task_training task_id action_plan transcript database)
  = {| tasks := update_where_id (set_training (json_dumps (JArr action_plan)) transcript)
                  task_id (tasks database);
       push_tokens := push_tokens database |}.
Proof.
  destruct (get_task task_id database) as [r|] eqn:E.
  - erewrite complete_training_known by eassumption. reflexivity.
  - apply get_task_none in E. rewrite complete_training_absent by assumption. simpl.
    rewrite update_where_id_absent by assumption.
    destruct database; reflexivity.
Qed.

(** C4. For a task id that no stored row has, [complete_task_training]
    raises HTTP 404 "Task not found" and the database it leaves is the one
    it found: no row of either table is changed. *)
Theorem complete_training_unknown_id (task_id : string) (action_plan : list json)
    (transcript : string) (database : Database) :
  get_task task_id database = None ->
  complete_task_training task_id action_plan transcript database
  = (Raise (HTTPException 404 "Task not found"), database).
Proof.
  intros Hnone. apply complete_training_absent, get_task_none. exact Hnone.
Qed.

(** C9. When [complete_task_training] succeeds, the [push_tokens] table
    and the number of task rows are unchanged, a row with another id is
    unchanged, and in every row (the trained one too) all columns but the
    action plan, the transcript and the status keep their values. *)
Theorem complete_training_frame (task_id : string) (action_plan : list json)
    (transcript : string) (database database' : Database) (reply : gmap string string) :
  complete_task_training task_id action_plan transcript database = (Ret reply, database') ->
  push_tokens database' = push_tokens database /\
  length (tasks database') = length (tasks database) /\
  forall (i : nat) (r : Task.t),
    tasks database !! i = Some r ->
    exists r', tasks database' !! i = Some r' /\
               same_other_columns r r' /\
               (Task.id r <> task_id -> r' = r).
Proof.
  intros Hrun.
  assert (Hdb : database' = snd (complete_task_training task_id action_plan transcript database))
    by (rewrite Hrun; reflexivity).
  rewrite complete_training_tasks in Hdb. subst database'. simpl.
  split; [reflexivity|]. split.
  - unfold update_where_id. apply length_map.
  - intros i r Hi. eexists. split.
    + apply update_where_id_lookup. exact Hi.
    + destruct (has_id task_id r) eqn:E.
      * split; [repeat split |].
        intros Hne. apply has_id_true in E. contradiction.
      * split; [repeat split | reflexivity].
Qed.

End StoreProofs.

(** ** create *)

Lemma existsb_has_id (task_id : string) (rows : list Task.t) :
  existsb (has_id task_id) rows = false <-> Forall (fun r => Task.id r <> task_id) rows.
Proof.
  induction rows as [|r rows IH]; simpl.
  - split; [constructor | reflexivity].
  - rewrite orb_false_iff, IH, has_id_false. split.
    + intros [? ?]. constructor; assumption.
    + intros Hall. inversion Hall; subst. split; assumption.
Qed.

Lemma all_ascii_complete (c : ascii) : In c all_ascii.
Proof.
  unfold all_ascii. apply in_map_iff. exists (nat_of_ascii c). split.
  - apply ascii_nat_embedding.
  - apply in_seq. pose proof (nat_ascii_bounded c). lia.
Qed.

Lemma strings_upto_complete (n : nat) (s : string) :
  String.length s <= n -> In s (strings_upto n).
Proof.
  revert s. induction n as [|n IH]; intros [|c s] Hlen;
    cbn [strings_upto String.length] in *; try lia; try apply in_eq.
  apply in_cons, in_flat_map. exists s. split; [apply IH; lia|].
  apply in_map_iff. exists c. split; [reflexivity | apply all_ascii_complete].
Qed.

Lemma substring_length_le (n : nat) (s : string) : String.length (substring 0 n s) <= n.
Proof.
  revert s. induction n as [|n IH]; intros [|c s]; simpl; try lia.
  specialize (IH s). lia.
Qed.

(** A list of values with a repetition, read back to the indices. *)
Lemma repeated_value (f : nat -> string) (l : list nat) :
  NoDup l -> ~ NoDup (map f l) -> exists i j, In i l /\ In j l /\ i <> j /\ f i = f j.
Proof.
  induction 1 as [|a l Ha Hl IH]; simpl; intros Hdup.
  - exfalso. apply Hdup. constructor.
  - destruct (in_dec string_dec (f a) (map f l)) as [Hin|Hout].
    + apply in_map_iff in Hin as (j & Hj & Hin). exists a, j.
      repeat split; auto. intros ->. apply Ha. apply list_elem_of_In. assumption.
    + destruct IH as (i & j & Hi & Hj & Hne & Heq).
      * intros Hnd. apply Hdup. apply NoDup_cons. split; [|assumption].
        rewrite list_elem_of_In. assumption.
      * exists i, j. auto.
Qed.

(** Pigeonhole: more values than there are strings of length at most [n]. *)
Lemma short_values_repeat (n : nat) (f : nat -> string) :
  (forall k, String.length (f k) <= n) ->
  exists i j, i < j <= length (strings_upto n) /\ f i = f j.
Proof.
  intros Hshort.
  destruct (repeated_value f (seq 0 (S (length (strings_upto n)))))
    as (i & j & Hi & Hj & Hne & Heq).
  - apply NoDup_ListNoDup, seq_NoDup.
  - intros Hnd. apply NoDup_ListNoDup in Hnd.
    apply (NoDup_incl_length (l' := strings_upto n)) in Hnd.
    + rewrite length_map, length_seq in Hnd. lia.
    + intros s Hs. apply in_map_iff in Hs as (k & <- & _).
      apply strings_upto_complete, Hshort.
  - apply in_seq in Hi, Hj.
    destruct (Nat.lt_ge_cases i j); [exists i, j | exists j, i]; split; auto; lia.
Qed.

Section CreateProofs.
Context `{PythonRuntime}.

Lemma new_task_id_nonempty (title : string) (now : datetime) :
  new_task_id title now <> "".
Proof. unfold new_task_id. simpl. discriminate. Qed.

(** What a returned task looks like: this is the case in which the INSERT
    went through. *)
Lemma create_task_returned (request : CreateTaskRequest.t) (clk : clock)
    (database database' : Database) (task : Task.t) :
  create_task request clk database = (Ret task, database') ->
  task = new_Task (new_task_id (CreateTaskRequest.title request) (local_now clk))
                  (isoformat_utc (utc_now clk)) "pending" request /\
  Forall (fun r => Task.id r <> Task.id task) (tasks database) /\
  database' = {| tasks := tasks database ++ [task]; push_tokens := push_tokens database |}.
Proof.
  unfold create_task, insert_task. cbn [new_Task Task.early_reminder_offset_mins Task.id].
  destruct (binds_integer _); cbn [negb]; [|discriminate].
  simpl. destruct (existsb _ (tasks database)) eqn:E; [discriminate|].
  intros Heq. injection Heq as <- <-.
  apply existsb_has_id in E. simpl in E.
  repeat split; assumption.
Qed.

(** A creation that returns bound all its values. *)
Lemma create_task_returned_binds (request : CreateTaskRequest.t) (clk : clock)
    (database database' : Database) (task : Task.t) :
  create_task request clk database = (Ret task, database') ->
  binds_integer (CreateTaskRequest.early_reminder_offset_mins request) = true.
Proof.
  unfold create_task, insert_task. cbn [new_Task Task.early_reminder_offset_mins Task.id].
  destruct (binds_integer _); cbn [negb]; [reflexivity | discriminate].
Qed.

(** A returned task has a non-empty id that no stored row had, the status
    pending, and the UTC clock reading of the call as its creation date. *)
Lemma create_task_returns_fresh_pending (request : CreateTaskRequest.t) (clk : clock)
    (database database' : Database) (task : Task.t) :
  create_task request clk database = (Ret task, database') ->
  Task.id task <> "" /\
  get_task (Task.id task) database = None /\
  Task.status task = "pending" /\
  Task.creation_date task = isoformat_utc (utc_now clk) /\
  get_task (Task.id task) database' = Some task.
Proof.
  intros Hrun. apply create_task_returned in Hrun as (Htask & Hfresh & ->).
  split; [rewrite Htask; apply new_task_id_nonempty|].
  split; [apply get_task_none; assumption|].
  split; [rewrite Htask; reflexivity|].
  split; [rewrite Htask; reflexivity|].
  unfold get_task. simpl. apply get_task_none in Hfresh. unfold get_task in Hfresh.
  clear Htask. induction (tasks database) as [|r rows IH]; simpl in *.
  - assert (Hid : has_id (Task.id task) task = true) by (apply has_id_true; reflexivity).
    rewrite Hid. reflexivity.
  - destruct (has_id (Task.id task) r); [discriminate | apply IH; assumption].
Qed.

Lemma create_task_raised (request : CreateTaskRequest.t) (clk : clock)
    (database database' : Database) (e : exception) :
  create_task request clk database = (Raise e, database') -> database' = database.
Proof.
  unfold create_task, insert_task. cbn [new_Task Task.early_reminder_offset_mins Task.id].
  destruct (binds_integer _); cbn [negb].
  - simpl. destruct (existsb _ (tasks database)); [|discriminate].
    intros Heq. injection Heq as _ <-. reflexivity.
  - intros Heq. injection Heq as _ <-. reflexivity.
Qed.

(** C3. Two creations that carry the same title and read the same value
    from [datetime.now()] build the same id, whatever [hash] is: when the
    first returns a task, the second is rejected by the primary key with an
    IntegrityError, returns no task and stores nothing. *)
Theorem create_task_same_instant_collides (request : CreateTaskRequest.t) (clk : clock)
    (database : Database) :
  match create_task request clk database with
  | (Ret task, database') =>
      create_task request clk database'
      = (Raise (IntegrityError "UNIQUE constraint failed: tasks.id"), database')
  | (Raise _, _) => True
  end.
Proof.
  destruct (create_task request clk database) as [[task|e] database'] eqn:E; [|exact I].
  pose proof (create_task_returned_binds _ _ _ _ _ E) as Hbinds.
  apply create_task_returned in E as (Htask & _ & ->).
  unfold create_task, insert_task. cbn [new_Task Task.early_reminder_offset_mins Task.id].
  rewrite Hbinds. simpl.
  rewrite existsb_app. simpl.
  assert (Hid : has_id (new_task_id (CreateTaskRequest.title request) (local_now clk)) task = true).
  { apply has_id_true. rewrite Htask. reflexivity. }
  rewrite Hid, orb_true_r. simpl. reflexivity.
Qed.

(** A generated id that a stored row already has: once the values are
    bound, the INSERT is rejected and the store is left as it was. *)
Lemma create_task_id_taken (request : CreateTaskRequest.t) (clk : clock) (database : Database)
    (r : Task.t) :
  binds_integer (CreateTaskRequest.early_reminder_offset_mins request) = true ->
  get_task (new_task_id (CreateTaskRequest.title request) (local_now clk)) database = Some r ->
  create_task request clk database
  = (Raise (IntegrityError "UNIQUE constraint failed: tasks.id"), database).
Proof.
  intros Hbinds Hget. unfold create_task, insert_task.
  cbn [new_Task Task.early_reminder_offset_mins Task.id]. rewrite Hbinds. simpl.
  destruct (existsb _ (tasks database)) eqn:E; [reflexivity|].
  apply existsb_has_id, get_task_none in E. congruence.
Qed.

(** An [int] that does not fit: the call raises OverflowError before the
    INSERT runs, whether the id is taken or not, and stores nothing. *)
Lemma create_task_unbound_integer (request : CreateTaskRequest.t) (clk : clock)
    (database : Database) :
  binds_integer (CreateTaskRequest.early_reminder_offset_mins request) = false ->
  create_task request clk database
  = (Raise (OtherException "OverflowError"
              "Python int too large to convert to SQLite INTEGER"), database).
Proof.
  intros Hbinds. unfold create_task, insert_task.
  cbn [new_Task Task.early_reminder_offset_mins Task.id]. rewrite Hbinds. reflexivity.
Qed.

(** Whatever [hash] is, ids repeat: the part after the prefix is one of
    the finitely many strings of length at most 8, so in any run of
    creations longer than that, with any titles and any clock readings, two
    creations build the same id. *)
Lemma new_task_id_repeats (titles : nat -> string) (nows : nat -> datetime) :
  exists i j, i < j <= length (strings_upto 8) /\
              new_task_id (titles i) (nows i) = new_task_id (titles j) (nows j).
Proof.
  destruct (short_values_repeat 8
              (fun k => str_prefix 8 (str_int (hash (titles k +:+ str_datetime (nows k))))))
    as (i & j & Hij & Heq).
  - intros k. apply substring_length_le.
  - exists i, j. split; [assumption|]. unfold new_task_id. simpl in Heq. rewrite Heq. reflexivity.
Qed.

Lemma create_task_primary_key (request : CreateTaskRequest.t) (clk : clock) (database : Database) :
  primary_key database -> primary_key (snd (create_task request clk database)).
Proof.
  intros Hpk. destruct (create_task request clk database) as [[task|e] database'] eqn:E; simpl.
  - apply create_task_returned in E as (_ & Hfresh & ->).
    unfold primary_key in *. simpl. rewrite map_app. simpl.
    apply NoDup_app. split; [assumption|]. split.
    + intros x Hx Hx'. apply list_elem_of_singleton in Hx'. subst x.
      apply list_elem_of_fmap in Hx as (r & Hr & Hin).
      rewrite Forall_forall in Hfresh. apply (Hfresh r); [assumption | congruence].
    + apply NoDup_singleton.
  - apply create_task_raised in E. subst. assumption.
Qed.

Lemma find_app_some {A : Type} (p : A -> bool) (l l' : list A) (x : A) :
  List.find p l = Some x -> List.find p (l ++ l') = Some x.
Proof.
  induction l as [|a l IH]; simpl; [discriminate|].
  destruct (p a); [intros; assumption | exact IH].
Qed.

Lemma create_task_get_task (request : CreateTaskRequest.t) (clk : clock) (database : Database)
    (task_id : string) (r : Task.t) :
  get_task task_id database = Some r ->
  get_task task_id (snd (create_task request clk database)) = Some r.
Proof.
  intros Hget. destruct (create_task request clk database) as [[task|e] database'] eqn:E; simpl.
  - apply create_task_returned in E as (_ & _ & ->).
    unfold get_task in *. simpl. apply find_app_some. assumption.
  - apply create_task_raised in E. subst. assumption.
Qed.

End CreateProofs.

(** ** find_due *)

Lemma is_due_spec (current_time_iso : string) (r : Task.t) :
  is_due current_time_iso r = true <->
  (exists d, Task.due_time r = Some d /\ String.leb d current_time_iso = true) /\
  Task.status r = "pending".
Proof.
  unfold is_due. destruct (Task.due_time r) as [d|].
  - rewrite andb_true_iff, String.eqb_eq. split.
    + intros [Hle Hst]. split; [exists d; split; [reflexivity | assumption] | assumption].
    + intros [(d' & Heq & Hle) Hst]. injection Heq as <-. split; assumption.
  - split; [discriminate|]. intros [(d & Heq & _) _]. discriminate.
Qed.

Lemma primary_key_same_id (database : Database) (r r' : Task.t) :
  primary_key database ->
  r ∈ tasks database -> r' ∈ tasks database -> Task.id r = Task.id r' -> r = r'.
Proof.
  unfold primary_key. intros Hnd Hr Hr' Hid.
  apply list_elem_of_lookup in Hr as [i Hi]. apply list_elem_of_lookup in Hr' as [j Hj].
  assert (i = j).
  { eapply NoDup_lookup; [exact Hnd | |].
    - rewrite list_lookup_fmap, Hi. reflexivity.
    - rewrite list_lookup_fmap, Hj. simpl. rewrite Hid. reflexivity. }
  subst j. congruence.
Qed.

Lemma select_due_reminders_elem (current_time_iso : string) (database : Database)
    (x : string * string * string) :
  x ∈ select_due_reminders current_time_iso database <->
  exists r, r ∈ tasks database /\ is_due current_time_iso r = true /\
            x = (Task.id r, Task.user_id r, Task.title r).
Proof.
  unfold select_due_reminders. rewrite list_elem_of_fmap. split.
  - intros (r & -> & Hin). apply list_elem_of_In, filter_In in Hin as [Hin Hdue].
    exists r. rewrite list_elem_of_In. auto.
  - intros (r & Hin & Hdue & ->). exists r. split; [reflexivity|].
    apply list_elem_of_In, filter_In. rewrite <- list_elem_of_In. auto.
Qed.


(** ** Scheduler tick *)

Lemma tick_step_refl (toks : gmap string string) (rows : list Task.t) :
  Forall2 (tick_step toks) rows rows.
Proof. induction rows; constructor; [left; reflexivity | assumption]. Qed.

Lemma tick_step_id (toks : gmap string string) (r r' : Task.t) :
  tick_step toks r r' -> Task.id r' = Task.id r.
Proof. intros [->|[-> _]]; reflexivity. Qed.

Lemma tick_step_ids (toks : gmap string string) (rows rows' : list Task.t) :
  Forall2 (tick_step toks) rows rows' -> map Task.id rows' = map Task.id rows.
Proof.
  induction 1 as [|r r' rows rows' Hr _ IH]; simpl; [reflexivity|].
  rewrite IH, (tick_step_id _ _ _ Hr). reflexivity.
Qed.

Lemma update_tick_step (toks : gmap string string) (task_id user_id : string)
    (rows0 rows : list Task.t) :
  is_Some (toks !! user_id) ->
  Forall (fun r0 => Task.id r0 = task_id ->
                    Task.status r0 = "pending" /\ Task.user_id r0 = user_id) rows0 ->
  Forall2 (tick_step toks) rows0 rows ->
  Forall2 (tick_step toks) rows0 (update_where_id (set_status "notified") task_id rows).
Proof.
  intros Htok Hall Hstep. revert Hall.
  induction Hstep as [|r0 r rows0 rows Hr _ IH]; intros Hall; simpl; [constructor|].
  inversion Hall as [|? ? Hr0 Hall']; subst.
  constructor; [|apply IH; assumption].
  destruct (has_id task_id r) eqn:E; [|assumption].
  apply has_id_true in E. rewrite (tick_step_id _ _ _ Hr) in E.
  destruct (Hr0 E) as [Hst Hu]. right.
  split; [|split; [assumption | rewrite Hu; assumption]].
  destruct Hr as [->|[-> _]]; reflexivity.
Qed.

(** The loop over the due reminders, from any point: the committed rows
    stay within [tick_step] of the rows the tick started from, and every
    provider call is for a due reminder whose owner has a token. *)
Lemma notify_each_inv (send : provider) (toks : gmap string string) (rows0 : list Task.t)
    (all_due due_reminders : list (string * string * string))
    (conn : Connection) (log : list delivery) :
  push_tokens (working conn) = toks ->
  push_tokens (committed conn) = toks ->
  Forall2 (tick_step toks) rows0 (tasks (working conn)) ->
  Forall2 (tick_step toks) rows0 (tasks (committed conn)) ->
  Forall (fun x => x ∈ all_due /\
                   Forall (fun r0 => Task.id r0 = x.1.1 ->
                                     Task.status r0 = "pending" /\ Task.user_id r0 = x.1.2) rows0)
         due_reminders ->
  exists extra,
    (notify_each send due_reminders conn log).2 = (log ++ extra)%list /\
    Forall (fun d => exists user_id title,
                (d.1, user_id, title) ∈ all_due /\ is_Some (toks !! user_id)) extra /\
    push_tokens (committed (notify_each send due_reminders conn log).1) = toks /\
    Forall2 (tick_step toks) rows0 (tasks (committed (notify_each send due_reminders conn log).1)).
Proof.
  intros Hw Hc Hrw Hrc Hdue. revert conn log Hw Hc Hrw Hrc.
  induction Hdue as [|[[task_id user_id] title] rest [Hin Hrows] _ IH]; intros conn log Hw Hc Hrw Hrc.
  - exists []. simpl. rewrite app_nil_r. auto.
  - simpl in Hrows. cbn [notify_each]. rewrite Hw.
    destruct (toks !! user_id) as [push_token|] eqn:Htok.
    + set (message := {| notification_title := "Remo Reminder!";
                         notification_body := title; token := push_token |}).
      assert (Hsome : is_Some (toks !! user_id)) by (rewrite Htok; eauto).
      assert (Hnew : Forall (fun d : delivery => exists user_id title,
                        (d.1, user_id, title) ∈ all_due /\ is_Some (toks !! user_id))
                      [(task_id, message)]).
      { constructor; [|constructor]. exists user_id, title. auto. }
      destruct (send log message) as [[]|e].
      * edestruct (IH (commit (with_tasks conn
                                 (update_where_id (set_status "notified") task_id
                                    (tasks (working conn)))))
                      (log ++ [(task_id, message)])%list) as (extra & Hlog & Hex & Hp & Hr);
          simpl; try assumption;
          try (apply update_tick_step with (user_id := user_id); assumption).
        exists ((task_id, message) :: extra). rewrite Hlog, <- app_assoc. simpl.
        repeat split; try assumption.
        inversion Hnew; subst. constructor; assumption.
      * edestruct (IH conn (log ++ [(task_id, message)])%list) as (extra & Hlog & Hex & Hp & Hr);
          try assumption.
        exists ((task_id, message) :: extra). rewrite Hlog, <- app_assoc. simpl.
        repeat split; try assumption.
        inversion Hnew; subst. constructor; assumption.
    + apply IH; assumption.
Qed.

Lemma due_rows_agree (current_time_iso : string) (database : Database) :
  primary_key database ->
  Forall (fun x => x ∈ select_due_reminders current_time_iso database /\
                   Forall (fun r0 => Task.id r0 = x.1.1 ->
                                     Task.status r0 = "pending" /\ Task.user_id r0 = x.1.2)
                          (tasks database))
         (select_due_reminders current_time_iso database).
Proof.
  intros Hpk. apply Forall_forall. intros x Hx. split; [assumption|].
  apply select_due_reminders_elem in Hx as (r & Hin & Hdue & ->). simpl.
  apply Forall_forall. intros r0 Hin0 Hid.
  rewrite (primary_key_same_id database r0 r Hpk Hin0 Hin Hid).
  apply is_due_spec in Hdue as [_ Hst]. auto.
Qed.

(** One tick: tokens are untouched, each row stays or goes from pending to
    notified (only with a token for its owner), and the calls made are for
    due reminders of owners with a token. *)
Lemma check_reminders_inv (send : provider) (now : datetime) (w : World) :
  primary_key (db w) ->
  push_tokens (db (check_reminders send now w)) = push_tokens (db w) /\
  Forall2 (tick_step (push_tokens (db w))) (tasks (db w)) (tasks (db (check_reminders send now w))) /\
  exists extra,
    sent (check_reminders send now w) = (sent w ++ extra)%list /\
    Forall (fun d => exists user_id title,
                (d.1, user_id, title) ∈ select_due_reminders (isoformat_utc now) (db w) /\
                is_Some (push_tokens (db w) !! user_id)) extra.
Proof.
  intros Hpk.
  destruct (notify_each_inv send (push_tokens (db w)) (tasks (db w))
              (select_due_reminders (isoformat_utc now) (db w))
              (select_due_reminders (isoformat_utc now) (db w))
              (connect (db w)) (sent w))
    as (extra & Hlog & Hex & Hp & Hr);
    try reflexivity; try apply tick_step_refl; [apply due_rows_agree; assumption|].
  unfold check_reminders. change (working (connect (db w))) with (db w).
  destruct (notify_each send (select_due_reminders (isoformat_utc now) (db w))
              (connect (db w)) (sent w)) as [conn log].
  simpl in Hlog, Hp, Hr.
  destruct (select_due_reminders (isoformat_utc now) (db w)) as [|x due]; simpl.
  - split; [reflexivity|]. split; [apply tick_step_refl|].
    exists []. rewrite app_nil_r. split; [reflexivity | constructor].
  - split; [assumption|]. split; [assumption|]. exists extra. split; assumption.
Qed.

Lemma check_reminders_primary_key (send : provider) (now : datetime) (w : World) :
  primary_key (db w) -> primary_key (db (check_reminders send now w)).
Proof.
  intros Hpk. destruct (check_reminders_inv send now w Hpk) as (_ & Hrows & _).
  unfold primary_key. rewrite (tick_step_ids _ _ _ Hrows). assumption.
Qed.

Lemma primary_key_get_task (database : Database) (r : Task.t) :
  primary_key database -> r ∈ tasks database -> get_task (Task.id r) database = Some r.
Proof.
  intros Hpk Hin. unfold get_task.
  destruct (List.find (has_id (Task.id r)) (tasks database)) as [r'|] eqn:E.
  - apply find_some in E as [Hin' Hid]. apply has_id_true in Hid.
    apply list_elem_of_In in Hin'.
    rewrite (primary_key_same_id database r' r Hpk Hin' Hin Hid). reflexivity.
  - exfalso. apply list_elem_of_In in Hin.
    pose proof (find_none _ _ E r Hin) as Hno. apply has_id_false in Hno. congruence.
Qed.

Lemma deliveries_for_app (task_id : string) (log extra : list delivery) :
  Forall (fun d => d.1 <> task_id) extra ->
  deliveries_for task_id (log ++ extra) = deliveries_for task_id log.
Proof.
  intros Hex. unfold deliveries_for. rewrite List.filter_app.
  replace (List.filter _ extra) with (@nil delivery); [apply app_nil_r|].
  induction Hex as [|d extra Hd _ IH]; simpl; [reflexivity|].
  apply String.eqb_neq in Hd. rewrite Hd. assumption.
Qed.

(** One tick and a task whose owner has no token. *)
Lemma check_reminders_no_token (send : provider) (now : datetime) (w : World) (r : Task.t) :
  primary_key (db w) ->
  r ∈ tasks (db w) ->
  push_tokens (db w) !! Task.user_id r = None ->
  r ∈ tasks (db (check_reminders send now w)) /\
  deliveries_for (Task.id r) (sent (check_reminders send now w))
  = deliveries_for (Task.id r) (sent w).
Proof.
  intros Hpk Hin Hnone.
  destruct (check_reminders_inv send now w Hpk) as (_ & Hrows & extra & Hlog & Hex).
  split.
  - apply list_elem_of_lookup in Hin as [i Hi].
    destruct (Forall2_lookup_l _ _ _ _ _ Hrows Hi) as (r' & Hi' & Hstep).
    apply list_elem_of_lookup. exists i.
    destruct Hstep as [->|(_ & _ & Hsome)]; [assumption|].
    rewrite Hnone in Hsome. destruct Hsome; discriminate.
  - rewrite Hlog. apply deliveries_for_app.
    eapply Forall_impl; [exact Hex|]. simpl.
    intros d (user_id & title & Hdue & Hsome) Hid.
    apply select_due_reminders_elem in Hdue as (r2 & Hin2 & _ & Heq).
    injection Heq as Hid2 Hu _.
    assert (r2 = r) by (apply (primary_key_same_id (db w)); congruence). subst r2.
    rewrite Hu, Hnone in Hsome. destruct Hsome; discriminate.
Qed.

(** C7. A stored pending task that is due at every tick and whose owner
    has no row in [push_tokens] is skipped by every run of
    [check_reminders]: after any number of ticks its row is the same, so
    its status is still pending, and the provider has been called for it
    no more often than before the ticks, that is zero times by them. *)
Theorem scheduler_skips_task_without_token (send : provider) (nows : list datetime)
    (w : World) (r : Task.t) :
  primary_key (db w) ->
  r ∈ tasks (db w) ->
  Task.status r = "pending" ->
  Forall (fun now => is_due (isoformat_utc now) r = true) nows ->
  push_tokens (db w) !! Task.user_id r = None ->
  get_task (Task.id r) (db (repeat_check_reminders send nows w)) = Some r /\
  Task.status <$> get_task (Task.id r) (db (repeat_check_reminders send nows w)) = Some "pending" /\
  deliveries_for (Task.id r) (sent (repeat_check_reminders send nows w))
  = deliveries_for (Task.id r) (sent w).
Proof.
  intros Hpk Hin Hst _ Hnone.
  assert (Hgoal : primary_key (db (repeat_check_reminders send nows w)) /\
                  r ∈ tasks (db (repeat_check_reminders send nows w)) /\
                  deliveries_for (Task.id r) (sent (repeat_check_reminders send nows w))
                  = deliveries_for (Task.id r) (sent w)).
  { revert w Hpk Hin Hnone. unfold repeat_check_reminders.
    induction nows as [|now nows IH]; intros w Hpk Hin Hnone; simpl; [auto|].
    destruct (check_reminders_no_token send now w r Hpk Hin Hnone) as [Hin' Hlog'].
    destruct (check_reminders_inv send now w Hpk) as (Htok & _ & _).
    destruct (IH (check_reminders send now w)) as (Hpk2 & Hin2 & Hlog2).
    - apply check_reminders_primary_key; assumption.
    - assumption.
    - rewrite Htok. assumption.
    - rewrite Hlog2, Hlog'. auto. }
  destruct Hgoal as (Hpk' & Hin' & Hlog').
  rewrite (primary_key_get_task _ r Hpk' Hin'). simpl. rewrite Hst. auto.
Qed.

(** ** Status along a sequence of operations *)

Lemma status_step_refl (s : string) : status_step s s.
Proof. left. reflexivity. Qed.

Lemma status_step_trans (s1 s2 s3 : string) :
  status_step s1 s2 -> status_step s2 s3 -> status_step s1 s3.
Proof.
  unfold status_step. intros H12 H23.
  destruct H23 as [->|[->|[-> ->]]]; [assumption | auto |].
  destruct H12 as [<-|[?|[_ ?]]]; [auto | discriminate | discriminate].
Qed.

Lemma status_step_not_pending (s s' : string) :
  status_step s s' -> s <> "pending" -> s' <> "pending".
Proof.
  intros [->|[->|[-> _]]] Hne; [assumption | discriminate | congruence].
Qed.

Lemma tick_step_status (toks : gmap string string) (r r' : Task.t) :
  tick_step toks r r' -> status_step (Task.status r) (Task.status r').
Proof.
  intros [->|(-> & Hst & _)]; [apply status_step_refl|].
  right. right. split; [assumption | reflexivity].
Qed.

Lemma find_Forall2 (toks : gmap string string) (task_id : string) (rows rows' : list Task.t)
    (r : Task.t) :
  Forall2 (tick_step toks) rows rows' ->
  List.find (has_id task_id) rows = Some r ->
  exists r', List.find (has_id task_id) rows' = Some r' /\ tick_step toks r r'.
Proof.
  induction 1 as [|a a' rows rows' Ha _ IH]; simpl; [discriminate|].
  assert (Hid : has_id task_id a' = has_id task_id a).
  { unfold has_id. rewrite (tick_step_id _ _ _ Ha). reflexivity. }
  rewrite Hid. destruct (has_id task_id a).
  - intros Heq. injection Heq as <-. eauto.
  - exact IH.
Qed.

Lemma find_update_where_id (f : Task.t -> Task.t) (task_id target : string)
    (rows : list Task.t) (r : Task.t) :
  (forall x, Task.id (f x) = Task.id x) ->
  List.find (has_id task_id) rows = Some r ->
  List.find (has_id task_id) (update_where_id f target rows)
  = Some (if has_id target r then f r else r).
Proof.
  intros Hf. unfold update_where_id. induction rows as [|a rows IH]; simpl; [discriminate|].
  assert (Hid : has_id task_id (if has_id target a then f a else a) = has_id task_id a).
  { destruct (has_id target a); [|reflexivity]. unfold has_id. rewrite Hf. reflexivity. }
  rewrite Hid. destruct (has_id task_id a).
  - intros Heq. injection Heq as <-. reflexivity.
  - exact IH.
Qed.

Section SequenceProofs.
Context `{PythonRuntime}.
Variable send : provider.

Lemma run_operation_primary_key (w : World) (op : operation) :
  primary_key (db w) -> primary_key (db (run_operation send w op)).
Proof.
  intros Hpk. destruct op as [request clk|task_id plan transcript|request|now]; simpl.
  - apply create_task_primary_key. assumption.
  - rewrite complete_training_tasks. unfold primary_key. simpl.
    rewrite update_where_id_ids by reflexivity. assumption.
  - assumption.
  - apply check_reminders_primary_key. assumption.
Qed.

Lemma run_operation_status (w : World) (op : operation) (task_id : string) (r : Task.t) :
  primary_key (db w) ->
  get_task task_id (db w) = Some r ->
  exists r', get_task task_id (db (run_operation send w op)) = Some r' /\
             status_step (Task.status r) (Task.status r').
Proof.
  intros Hpk Hget. destruct op as [request clk|target plan transcript|request|now]; simpl.
  - exists r. split; [apply create_task_get_task; assumption | apply status_step_refl].
  - rewrite complete_training_tasks. unfold get_task in *. simpl.
    erewrite find_update_where_id by (try reflexivity; eassumption).
    eexists. split; [reflexivity|].
    destruct (has_id target r); [right; left; reflexivity | apply status_step_refl].
  - exists r. split; [assumption | apply status_step_refl].
  - destruct (check_reminders_inv send now w Hpk) as (_ & Hrows & _).
    destruct (find_Forall2 _ task_id _ _ r Hrows Hget) as (r' & Hfind & Hstep).
    exists r'. split; [exact Hfind | apply tick_step_status with (toks := push_tokens (db w)); exact Hstep].
Qed.

(** C2. However create, complete_training, register_push_token and
    scheduler ticks are interleaved, a stored task stays stored, and its
    status after the sequence is its old status, or trained, or (from
    pending only) notified. So a status that has left pending never returns
    to pending, and the only move out of notified is to trained, which
    complete_training makes from any status. *)
Theorem status_never_returns_to_pending (ops : list operation) (w : World)
    (task_id : string) (r : Task.t) :
  primary_key (db w) ->
  get_task task_id (db w) = Some r ->
  exists r', get_task task_id (db (run_operations send ops w)) = Some r' /\
             status_step (Task.status r) (Task.status r') /\
             (Task.status r <> "pending" -> Task.status r' <> "pending") /\
             (Task.status r = "notified" ->
              Task.status r' = "notified" \/ Task.status r' = "trained").
Proof.
  intros Hpk Hget.
  assert (Hmain : exists r', get_task task_id (db (run_operations send ops w)) = Some r' /\
                             status_step (Task.status r) (Task.status r')).
  { revert w r Hpk Hget. unfold run_operations.
    induction ops as [|op ops IH]; intros w r Hpk Hget; simpl.
    - exists r. split; [assumption | apply status_step_refl].
    - destruct (run_operation_status w op task_id r Hpk Hget) as (r1 & Hget1 & Hstep1).
      destruct (IH (run_operation send w op) r1) as (r' & Hget' & Hstep').
      + apply run_operation_primary_key. assumption.
      + assumption.
      + exists r'. split; [assumption | eapply status_step_trans; eassumption]. }
  destruct Hmain as (r' & Hget' & Hstep). exists r'.
  split; [assumption|]. split; [assumption|]. split.
  - apply status_step_not_pending. assumption.
  - intros Hn. destruct Hstep as [->|[->|[Hp _]]]; [auto | auto | congruence].
Qed.

End SequenceProofs.

(** ** Traces *)

Lemma io_bind_trace {A B : Type} (m : io A) (k : A -> io B) :
  (io_bind m k).1 = (m.1 ++ match m.2 with Ret v => (k v).1 | Raise _ => [] end)%list.
Proof.
  destruct m as [t [v|e]]; simpl.
  - destruct (k v); reflexivity.
  - rewrite app_nil_r. reflexivity.
Qed.

Lemma io_bind_result {A B : Type} (m : io A) (k : A -> io B) :
  (io_bind m k).2 = match m.2 with Ret v => (k v).2 | Raise e => Raise e end.
Proof. destruct m as [t [v|e]]; simpl; [destruct (k v)|]; reflexivity. Qed.

Lemma planner_calls_app (t t' : list effect) :
  planner_calls (t ++ t') = planner_calls t + planner_calls t'.
Proof. unfold planner_calls. rewrite List.filter_app, length_app. reflexivity. Qed.

Lemma forward_events_run `{PythonRuntime} (events : list json) :
  forward_events events = (map (fun event => SendText (json_dumps event)) events, Ret tt).
Proof.
  induction events as [|event rest IH]; simpl; [reflexivity|].
  rewrite IH. reflexivity.
Qed.

(** ** Browser Action Tool *)

Section ToolProofs.
Context `{PythonRuntime}.

(** How the browser tool ends, by cases on the driver. *)
Lemma browser_tool_cases (drv : Driver) (url : string) :
  exists d, (use_browser_and_get_content drv url).2 = Ret d /\
    ((exists html_content, d = success_result html_content /\
                           content drv url = Ret html_content) \/
     (exists e, d = error_result (str_exc e) /\ browser_failure drv url e)).
Proof.
  unfold use_browser_and_get_content, with_playwright, browser_failure,
    success_result, error_result.
  driver_cases drv url; simpl;
    (eexists; split; [reflexivity|];
     first [ left; eexists; split; reflexivity
           | right; eexists; split; [reflexivity | auto 10] ]).
Qed.

(** A returned success dictionary is read back at its two keys. *)
Lemma success_result_inv (d : gmap string string) (html_content : string) :
  Ret d = Ret (success_result html_content) ->
  d !! "status" = Some "success" /\ d !! "html_content" = Some html_content.
Proof. intros Heq. injection Heq as ->. split; reflexivity. Qed.

(** C6. Whatever the driver does and for every URL,
    [use_browser_and_get_content] returns a dictionary and does not raise.
    It returns the success dictionary with the page HTML exactly when every
    driver call returns. Every failure is caught and gives the error
    dictionary whose message is [str(e)] of the caught exception [e]: the
    exception of [start] if the driver does not start; otherwise that of
    [stop] if stopping the driver fails; otherwise that of the first call
    that fails among launch, new page, goto, content and close. The message
    is that text as it is: it is empty when the text of the exception is. *)
Theorem browser_tool_never_raises (drv : Driver) (url : string) :
  (exists d, (use_browser_and_get_content drv url).2 = Ret d /\
     ((exists html_content, d = success_result html_content /\
                            d !! "status" = Some "success" /\
                            d !! "html_content" = Some html_content /\
                            content drv url = Ret html_content) \/
      (exists e, d = error_result (str_exc e) /\
                 d !! "status" = Some "error" /\
                 d !! "message" = Some (str_exc e) /\
                 browser_failure drv url e))) /\
  (forall html_content,
     start drv = Ret tt -> launch drv true = Ret tt -> new_page drv = Ret tt ->
     goto drv url = Ret tt -> content drv url = Ret html_content ->
     browser_close drv = Ret tt -> stop drv = Ret tt ->
     (use_browser_and_get_content drv url).2 = Ret (success_result html_content)) /\
  (forall html_content,
     (use_browser_and_get_content drv url).2 = Ret (success_result html_content) ->
     start drv = Ret tt /\ launch drv true = Ret tt /\ new_page drv = Ret tt /\
     goto drv url = Ret tt /\ content drv url = Ret html_content /\
     browser_close drv = Ret tt /\ stop drv = Ret tt) /\
  (forall e,
     start drv = Raise e ->
     (use_browser_and_get_content drv url).2 = Ret (error_result (str_exc e))) /\
  (forall e,
     start drv = Ret tt -> stop drv = Raise e ->
     (use_browser_and_get_content drv url).2 = Ret (error_result (str_exc e))) /\
  (forall e,
     start drv = Ret tt -> stop drv = Ret tt -> launch drv true = Raise e ->
     (use_browser_and_get_content drv url).2 = Ret (error_result (str_exc e))) /\
  (forall e,
     start drv = Ret tt -> stop drv = Ret tt -> launch drv true = Ret tt ->
     new_page drv = Raise e ->
     (use_browser_and_get_content drv url).2 = Ret (error_result (str_exc e))) /\
  (forall e,
     start drv = Ret tt -> stop drv = Ret tt -> launch drv true = Ret tt ->
     new_page drv = Ret tt -> goto drv url = Raise e ->
     (use_browser_and_get_content drv url).2 = Ret (error_result (str_exc e))) /\
  (forall e,
     start drv = Ret tt -> stop drv = Ret tt -> launch drv true = Ret tt ->
     new_page drv = Ret tt -> goto drv url = Ret tt -> content drv url = Raise e ->
     (use_browser_and_get_content drv url).2 = Ret (error_result (str_exc e))) /\
  (forall e html_content,
     start drv = Ret tt -> stop drv = Ret tt -> launch drv true = Ret tt ->
     new_page drv = Ret tt -> goto drv url = Ret tt ->
     content drv url = Ret html_content -> browser_close drv = Raise e ->
     (use_browser_and_get_content drv url).2 = Ret (error_result (str_exc e))).
Proof.
  split.
  { destruct (browser_tool_cases drv url) as (d & Hd & [(html & -> & Hc)|(e & -> & He)]);
      eexists; (split; [exact Hd|]).
    - left. exists html. repeat split. assumption.
    - right. exists e. repeat split. assumption. }
  unfold use_browser_and_get_content, with_playwright.
  driver_cases drv url; simpl;
    repeat match goal with |- _ /\ _ => split end;
    intros;
    try match goal with
        | Heq : Ret _ = Ret (success_result _) |- _ =>
            apply success_result_inv in Heq; destruct Heq as [Hstatus Hhtml];
            vm_compute in Hstatus; vm_compute in Hhtml
        end;
    simplify_eq; try reflexivity; auto 10.
Qed.

Lemma browser_tool_no_planner_step (drv : Driver) (url : string) :
  planner_calls (use_browser_and_get_content drv url).1 = 0.
Proof.
  unfold use_browser_and_get_content, with_playwright.
  driver_cases drv url; reflexivity.
Qed.

End ToolProofs.

(** ** Recording Tool *)

Section RecorderProofs.
Context `{PythonRuntime}.

(** C8. When [rrweb.js] is missing, [start_interactive_session] returns
    normally after one [send_text]: the only frame sent is the error
    event, nothing else reaches the client or the browser, and no effect of
    the run starts the driver, launches a browser or opens a page. *)
Theorem recorder_missing_script (drv : Driver) (url msg : string) :
  (start_interactive_session (Raise (FileNotFoundError msg)) drv url).2 = Ret tt /\
  frames_sent (start_interactive_session (Raise (FileNotFoundError msg)) drv url).1
  = [missing_script_frame] /\
  without_console (start_interactive_session (Raise (FileNotFoundError msg)) drv url).1
  = [SendText missing_script_frame] /\
  Forall (fun e => opens_browser e = false)
         (start_interactive_session (Raise (FileNotFoundError msg)) drv url).1.
Proof.
  unfold start_interactive_session, missing_script_frame. simpl.
  repeat split. repeat constructor.
Qed.

(** Every navigation of a recording session goes to the URL it was given. *)
Lemma start_interactive_session_navigations (rrweb_js : outcome string) (drv : Driver)
    (url : string) :
  Forall (fun u => u = url) (navigations (start_interactive_session rrweb_js drv url).1).
Proof.
  unfold start_interactive_session, with_playwright.
  destruct rrweb_js as [script|[]]; simpl; try (repeat constructor).
  rewrite forward_events_run.
  destruct (start drv) as [[]|?]; simpl; [|repeat constructor].
  destruct (launch drv false) as [[]|?]; simpl;
    [|destruct (stop drv) as [[]|?]; repeat constructor].
  destruct (new_page drv) as [[]|?]; simpl;
    [|destruct (stop drv) as [[]|?]; repeat constructor].
  destruct (expose_function drv _) as [[]|?]; simpl;
    [|destruct (stop drv) as [[]|?]; repeat constructor].
  assert (Hev : forall (events : list json) (rest : list effect),
             navigations (map (fun event => SendText (json_dumps event)) events ++ rest)
             = navigations rest).
  { intros events rest. induction events; simpl; [reflexivity | assumption]. }
  destruct (goto drv url) as [[]|?]; simpl;
    [|destruct (stop drv) as [[]|?]; repeat constructor].
  destruct (evaluate drv script) as [[]|?]; simpl;
    [|destruct (stop drv) as [[]|?]; repeat constructor].
  destruct (evaluate drv record_script) as [[]|?]; simpl;
    [|destruct (stop drv) as [[]|?]; repeat constructor].
  destruct (wait_for_close drv) as [[]|?]; simpl;
    destruct (stop drv) as [[]|?]; simpl;
    unfold navigations; simpl; fold navigations;
    rewrite <- ?app_assoc, Hev; repeat constructor.
Qed.

Lemma navigations_app (t t' : list effect) :
  navigations (t ++ t') = (navigations t ++ navigations t')%list.
Proof. unfold navigations. apply omap_app. Qed.

Lemma without_console_app (t t' : list effect) :
  without_console (t ++ t') = (without_console t ++ without_console t')%list.
Proof. unfold without_console. apply List.filter_app. Qed.

(** C10. Two recording connections in the same environment do the same
    thing to the client and to the browser and end the same way, whatever
    their [task_id] and [user_id] are (these reach the console only); and
    every page navigation of a recording connection goes to the fixed URL
    https://google.github.io/adk-docs/. *)
Theorem recording_start_url_fixed (rrweb_js : outcome string) (drv : Driver)
    (task_id user_id task_id' user_id' : string) :
  without_console (websocket_record_session rrweb_js drv task_id user_id).1
  = without_console (websocket_record_session rrweb_js drv task_id' user_id').1 /\
  (websocket_record_session rrweb_js drv task_id user_id).2
  = (websocket_record_session rrweb_js drv task_id' user_id').2 /\
  Forall (fun u => u = "https://google.github.io/adk-docs/")
         (navigations (websocket_record_session rrweb_js drv task_id user_id).1).
Proof.
  pose proof (start_interactive_session_navigations rrweb_js drv
                "https://google.github.io/adk-docs/") as Hnav.
  unfold websocket_record_session.
  destruct (start_interactive_session rrweb_js drv "https://google.github.io/adk-docs/")
    as [t [[]|e]]; simpl in *.
  - rewrite !without_console_app, navigations_app. simpl.
    rewrite !app_nil_r. repeat split. assumption.
  - rewrite !without_console_app, !navigations_app. simpl.
    rewrite !app_nil_r. repeat split. assumption.
Qed.

End RecorderProofs.

(** ** Bounded agentic loop *)

Section LoopProofs.
Context `{PythonRuntime}.
Variable planner_agent : planner.
Variable browser : nat -> Driver.

Lemma browser_tool_returns (drv : Driver) (url : string) :
  exists t d, use_browser_and_get_content drv url = (t, Ret d) /\ planner_calls t = 0.
Proof.
  destruct (browser_tool_cases drv url) as (d & Hd & _).
  pose proof (browser_tool_no_planner_step drv url) as Hc.
  destruct (use_browser_and_get_content drv url) as [t r]. simpl in *. subst r. eauto.
Qed.

(** Any planner: at most [n] planner steps in [n] rounds, and the loop
    returns. *)
Lemma loop_agent_bounded (n iteration : nat) (s : Session) :
  planner_calls (loop_agent planner_agent browser n iteration s).1 <= n /\
  exists result, (loop_agent planner_agent browser n iteration s).2 = Ret result.
Proof.
  revert iteration s. induction n as [|n IH]; intros iteration s; simpl.
  - split; [apply Nat.le_refl | eauto].
  - destruct (planner_agent iteration (user_goal s) (page_observation s)) as [url|reason]; simpl.
    + destruct (browser_tool_returns (browser iteration) url) as (t & d & -> & Ht).
      cbn [io_bind].
      destruct (IH (S iteration) (observe (Observed d) s)) as [Hle [result Hres]].
      destruct (loop_agent planner_agent browser n (S iteration) (observe (Observed d) s))
        as [t' r']. simpl in *. subst r'.
      split; [|eauto].
      change (PlannerStep iteration :: (t ++ t')%list)
        with ([PlannerStep iteration] ++ (t ++ t'))%list.
      rewrite !planner_calls_app, Ht. simpl. lia.
    + split; [unfold planner_calls; simpl; lia | eauto].
Qed.

(** A planner that never finishes: exactly [n] planner steps, and the
    result is the state after the last fetch. *)
Lemma loop_agent_cap (n iteration : nat) (s : Session) :
  never_finishes planner_agent ->
  planner_calls (loop_agent planner_agent browser n iteration s).1 = n /\
  exists s', (loop_agent planner_agent browser n iteration s).2 = Ret (CapReached s') /\
             user_goal s' = user_goal s /\
             start_url s' = start_url s /\
             (n = 0 -> s' = s) /\
             (0 < n ->
              exists s_last url d,
                planner_agent (iteration + n - 1) (user_goal s_last) (page_observation s_last)
                = Fetch url /\
                (use_browser_and_get_content (browser (iteration + n - 1)) url).2 = Ret d /\
                s' = observe (Observed d) s_last).
Proof.
  intros Hnever. revert iteration s. induction n as [|n IH]; intros iteration s; simpl.
  - split; [reflexivity|]. exists s.
    split; [reflexivity|]. split; [reflexivity|]. split; [reflexivity|].
    split; [reflexivity|]. lia.
  - destruct (Hnever iteration (user_goal s) (page_observation s)) as [url Hurl].
    rewrite Hurl. simpl.
    destruct (browser_tool_returns (browser iteration) url) as (t & d & Htool & Ht).
    rewrite Htool. cbn [io_bind].
    destruct (IH (S iteration) (observe (Observed d) s)) as (Hcalls & s' & Hres & Hgoal & Hstart & Hzero & Hpos).
    destruct (loop_agent planner_agent browser n (S iteration) (observe (Observed d) s))
      as [t' r']. simpl in *. subst r'.
    split.
    + change (PlannerStep iteration :: (t ++ t')%list)
        with ([PlannerStep iteration] ++ (t ++ t'))%list.
      rewrite !planner_calls_app, Ht, Hcalls. reflexivity.
    + exists s'. split; [reflexivity|]. split; [assumption|]. split; [assumption|].
      split; [discriminate|].
      intros _. destruct n as [|n].
      * exists s, url, d. replace (iteration + 1 - 1) with iteration by lia.
        rewrite Htool. rewrite (Hzero eq_refl). auto.
      * destruct Hpos as (s_last & url' & d' & Hp & Htool' & Hs'); [lia|].
        exists s_last, url', d'.
        replace (iteration + S (S n) - 1) with (S iteration + S n - 1) by lia. auto.
Qed.

(** C1. One run of the thinker loop makes at most 5 planner steps and
    returns, whatever the planner answers. If the planner never finishes,
    the run makes exactly 5 planner steps and returns (it does not raise)
    the cap result, whose state keeps the goal and holds as its observation
    what the browser tool returned for the URL chosen in the fifth step. *)
Theorem thinker_loop_bounded (s : Session) :
  planner_calls (thinker_agent planner_agent browser s).1 <= 5 /\
  (exists result, (thinker_agent planner_agent browser s).2 = Ret result) /\
  (never_finishes planner_agent ->
   planner_calls (thinker_agent planner_agent browser s).1 = 5 /\
   exists s_last url d,
     planner_agent 4 (user_goal s_last) (page_observation s_last) = Fetch url /\
     (use_browser_and_get_content (browser 4) url).2 = Ret d /\
     (thinker_agent planner_agent browser s).2
     = Ret (CapReached {| user_goal := user_goal s;
                          start_url := start_url s;
                          page_observation := Observed d |})).
Proof.
  unfold thinker_agent, max_iterations.
  destruct (loop_agent_bounded 5 0 s) as [Hle Hret].
  split; [assumption|]. split; [assumption|].
  intros Hnever.
  destruct (loop_agent_cap 5 0 s Hnever) as (Hcalls & s' & Hres & Hgoal & Hstart & _ & Hpos).
  split; [assumption|].
  destruct Hpos as (s_last & url & d & Hp & Htool & Hs'); [lia|].
  exists s_last, url, d. split; [assumption|]. split; [assumption|].
  rewrite Hres. subst s'. simpl in Hgoal, Hstart. unfold observe.
  rewrite Hgoal, Hstart. reflexivity.
Qed.

End LoopProofs.

(** * Worked instances *)

(** ** The store on the sample data *)

Lemma sample_db_primary_key : primary_key sample_db.
Proof. unfold primary_key. apply (bool_decide_unpack _). vm_compute. exact I. Qed.

Example sample_task_id :
  @new_task_id sample_runtime "Pay rent" (local_now sample_clock) = "task_-4649669".
Proof. vm_compute. reflexivity. Qed.

Example sample_creation_date :
  Task.creation_date <$>
    match @create_task sample_runtime sample_request sample_clock empty_db with
    | (Ret task, _) => Some task
    | (Raise _, _) => None
    end
  = Some "2025-03-01T09:00:00.250000+00:00".
Proof. vm_compute. reflexivity. Qed.

(** The same request at the same clock reading, twice: the second INSERT
    hits the primary key. *)
Example create_task_twice :
  (@create_task sample_runtime sample_request sample_clock
     (@create_task sample_runtime sample_request sample_clock empty_db).2).1
  = Raise (IntegrityError "UNIQUE constraint failed: tasks.id").
Proof. vm_compute. reflexivity. Qed.

Example sample_due_reminders :
  select_due_reminders (isoformat_utc (at_time 9 0 0 0)) sample_db
  = [("task_1", "bob", "Reminder task_1"); ("task_2", "alice", "Reminder task_2")].
Proof. vm_compute. reflexivity. Qed.

Example sample_tick_statuses :
  map Task.status (tasks (db (check_reminders always_delivers (at_time 9 0 0 0) sample_world)))
  = ["pending"; "notified"; "pending"; "trained"; "notified"; "pending"].
Proof. vm_compute. reflexivity. Qed.

Example sample_tick_provider_down :
  map Task.status (tasks (db (check_reminders always_fails (at_time 9 0 0 0) sample_world)))
  = ["pending"; "pending"; "pending"; "trained"; "notified"; "pending"] /\
  length (sent (check_reminders always_fails (at_time 9 0 0 0) sample_world)) = 1.
Proof. vm_compute. split; reflexivity. Qed.

Lemma complete_training_unknown_id_witness :
  get_task "task_9" sample_db = None /\
  @complete_task_training sample_runtime "task_9" [] "nothing recorded" sample_db
  = (Raise (HTTPException 404 "Task not found"), sample_db).
Proof.
  split; [reflexivity|].
  apply (@complete_training_unknown_id sample_runtime "task_9" [] "nothing recorded" sample_db).
  reflexivity.
Defined.

Lemma complete_training_frame_witness :
  let run := @complete_task_training sample_runtime "task_2"
               [JObj [("type", JStr "click")]] "clicked pay" sample_db in
  run = (Ret (<["status" := "success"]> (<["task_id" := "task_2"]> ∅)), run.2) /\
  push_tokens run.2 = push_tokens sample_db /\
  length (tasks run.2) = length (tasks sample_db) /\
  forall (i : nat) (r : Task.t),
    tasks sample_db !! i = Some r ->
    exists r', tasks run.2 !! i = Some r' /\
               same_other_columns r r' /\
               (Task.id r <> "task_2" -> r' = r).
Proof.
  assert (Hrun : @complete_task_training sample_runtime "task_2"
                   [JObj [("type", JStr "click")]] "clicked pay" sample_db
                 = (Ret (<["status" := "success"]> (<["task_id" := "task_2"]> ∅)),
                    (@complete_task_training sample_runtime "task_2"
                       [JObj [("type", JStr "click")]] "clicked pay" sample_db).2))
    by (vm_compute; reflexivity).
  split; [exact Hrun|].
  exact (@complete_training_frame sample_runtime "task_2" [JObj [("type", JStr "click")]]
           "clicked pay" sample_db _ _ Hrun).
Defined.



Lemma scheduler_skips_task_without_token_witness :
  (primary_key (db sample_world) /\
   bobs_task ∈ tasks (db sample_world) /\
   Task.status bobs_task = "pending" /\
   Forall (fun now => is_due (isoformat_utc now) bobs_task = true)
          [at_time 9 0 0 0; at_time 9 1 0 0] /\
   push_tokens (db sample_world) !! Task.user_id bobs_task = None) /\
  get_task "task_1"
    (db (repeat_check_reminders always_delivers [at_time 9 0 0 0; at_time 9 1 0 0] sample_world))
  = Some bobs_task /\
  Task.status <$> get_task "task_1"
    (db (repeat_check_reminders always_delivers [at_time 9 0 0 0; at_time 9 1 0 0] sample_world))
  = Some "pending" /\
  deliveries_for "task_1"
    (sent (repeat_check_reminders always_delivers [at_time 9 0 0 0; at_time 9 1 0 0] sample_world))
  = deliveries_for "task_1" (sent sample_world).
Proof.
  assert (Hin : bobs_task ∈ tasks (db sample_world)) by (simpl; apply list_elem_of_here).
  assert (Hdue : Forall (fun now => is_due (isoformat_utc now) bobs_task = true)
                        [at_time 9 0 0 0; at_time 9 1 0 0])
    by (repeat constructor).
  assert (Hnone : push_tokens (db sample_world) !! Task.user_id bobs_task = None)
    by (vm_compute; reflexivity).
  split.
  { split; [exact sample_db_primary_key|]. split; [exact Hin|]. split; [reflexivity|].
    split; [exact Hdue | exact Hnone]. }
  exact (scheduler_skips_task_without_token always_delivers
           [at_time 9 0 0 0; at_time 9 1 0 0] sample_world bobs_task
           sample_db_primary_key Hin eq_refl Hdue Hnone).
Defined.

(** ** Status along sample sequences *)

(** C2, as stated, fails: a created task is notified by a tick and then
    trained by complete_training, which takes it from notified back to
    trained, the earlier status in the order pending, trained, notified. *)
Lemma notified_task_becomes_trained :
  let before := @run_operations sample_runtime always_delivers
                  [Create sample_request sample_clock;
                   RegisterPushToken sample_token;
                   Tick (at_time 9 0 1 0)] empty_world in
  let after := @run_operation sample_runtime always_delivers before
                 (CompleteTraining "task_-4649669" [JObj [("type", JStr "click")]] "clicked pay") in
  Task.status <$> get_task "task_-4649669" (db before) = Some "notified" /\
  Task.status <$> get_task "task_-4649669" (db after) = Some "trained" /\
  status_rank "trained" < status_rank "notified".
Proof.
  split; [vm_compute; reflexivity|].
  split; [vm_compute; reflexivity|].
  vm_compute. apply Nat.le_refl.
Qed.

Lemma status_never_returns_to_pending_witness :
  let ops := [CompleteTraining "task_5" [] "trained again"; Tick (at_time 9 0 0 0);
              Create sample_request sample_clock] in
  let r := sample_row "task_5" "alice" "2025-03-01T08:00:00+00:00" "notified" in
  (primary_key (db sample_world) /\ get_task "task_5" (db sample_world) = Some r) /\
  exists r', get_task "task_5" (db (@run_operations sample_runtime always_delivers ops sample_world))
             = Some r' /\
             status_step (Task.status r) (Task.status r') /\
             (Task.status r <> "pending" -> Task.status r' <> "pending") /\
             (Task.status r = "notified" ->
              Task.status r' = "notified" \/ Task.status r' = "trained").
Proof.
  split; [split; [exact sample_db_primary_key | reflexivity]|].
  exact (@status_never_returns_to_pending sample_runtime always_delivers _ sample_world
           "task_5" _ sample_db_primary_key eq_refl).
Defined.

(** ** The tools on the sample drivers *)

(** C6, as stated, fails: when the driver cannot start and raises an
    exception whose text is empty, the tool returns the error dictionary
    with an empty message. *)
Lemma browser_tool_empty_message :
  (use_browser_and_get_content unsupported_driver "https://unreachable.invalid/").2
  = Ret (error_result "") /\
  error_result "" !! "status" = Some "error" /\
  error_result "" !! "message" = Some "" /\
  ~ (exists m, error_result "" !! "message" = Some m /\ m <> "").
Proof.
  split; [reflexivity|]. split; [reflexivity|]. split; [reflexivity|].
  intros (m & Hm & Hne). apply Hne.
  assert (Heq : error_result "" !! "message" = Some "") by reflexivity.
  congruence.
Qed.

(** C6 on the sample drivers: every call of the working driver returns and
    the tool returns the page; the driver that cannot resolve the host
    fails at [goto], and the tool returns the text of that exception. *)
Lemma browser_tool_never_raises_witness :
  ((start working_driver = Ret tt /\ launch working_driver true = Ret tt /\
    new_page working_driver = Ret tt /\ goto working_driver "https://example.org/" = Ret tt /\
    content working_driver "https://example.org/" = Ret "<html>https://example.org/</html>" /\
    browser_close working_driver = Ret tt /\ stop working_driver = Ret tt) /\
   (use_browser_and_get_content working_driver "https://example.org/").2
   = Ret (success_result "<html>https://example.org/</html>")) /\
  ((start unreachable_driver = Ret tt /\ stop unreachable_driver = Ret tt /\
    launch unreachable_driver true = Ret tt /\ new_page unreachable_driver = Ret tt /\
    goto unreachable_driver "https://unreachable.invalid/"
    = Raise (PlaywrightError "net::ERR_NAME_NOT_RESOLVED at https://unreachable.invalid/")) /\
   (use_browser_and_get_content unreachable_driver "https://unreachable.invalid/").2
   = Ret (error_result
            (str_exc (PlaywrightError
                        "net::ERR_NAME_NOT_RESOLVED at https://unreachable.invalid/")))).
Proof.
  split.
  - split; [repeat split|].
    destruct (browser_tool_never_raises working_driver "https://example.org/")
      as (_ & Hall & _).
    exact (Hall _ eq_refl eq_refl eq_refl eq_refl eq_refl eq_refl eq_refl).
  - split; [repeat split|].
    destruct (browser_tool_never_raises unreachable_driver "https://unreachable.invalid/")
      as (_ & _ & _ & _ & _ & _ & _ & Hgoto & _).
    exact (Hgoto _ eq_refl eq_refl eq_refl eq_refl eq_refl).
Defined.

Example browser_tool_on_working_driver :
  (use_browser_and_get_content working_driver "https://example.org/").2
  = Ret (success_result "<html>https://example.org/</html>").
Proof. reflexivity. Qed.

Example recorder_frames_on_working_driver :
  frames_sent (@start_interactive_session sample_runtime (Ret "rrweb") working_driver
                 "https://example.org/").1
  = [sample_dumps (JObj [("type", JNum 4)])].
Proof. vm_compute. reflexivity. Qed.

Lemma thinker_loop_bounded_witness :
  let s := new_session "Find the main headline" "https://news.ycombinator.com/" in
  never_finishes always_fetch /\
  planner_calls (thinker_agent always_fetch (fun _ => working_driver) s).1 = 5 /\
  exists s_last url d,
    always_fetch 4 (user_goal s_last) (page_observation s_last) = Fetch url /\
    (use_browser_and_get_content working_driver url).2 = Ret d /\
    (thinker_agent always_fetch (fun _ => working_driver) s).2
    = Ret (CapReached {| user_goal := user_goal s;
                         start_url := start_url s;
                         page_observation := Observed d |}).
Proof.
  assert (Hnever : never_finishes always_fetch) by (intros i goal o; eexists; reflexivity).
  split; [exact Hnever|].
  exact (proj2 (proj2 (thinker_loop_bounded always_fetch (fun _ => working_driver)
                         (new_session "Find the main headline" "https://news.ycombinator.com/")))
           Hnever).
Defined.

Example thinker_loop_finishes_early :
  (thinker_agent (fun i _ _ => if Nat.ltb i 2 then Fetch "https://example.org/"
                               else Finish "headline found")
                 (fun _ => working_driver)
                 (new_session "Find the main headline" "https://example.org/")).2
  = Ret (Finished "headline found"
           {| user_goal := "Find the main headline";
              start_url := "https://example.org/";
              page_observation := Observed (success_result "<html>https://example.org/</html>") |}) /\
  planner_calls
    (thinker_agent (fun i _ _ => if Nat.ltb i 2 then Fetch "https://example.org/"
                                 else Finish "headline found")
                   (fun _ => working_driver)
                   (new_session "Find the main headline" "https://example.org/")).1 = 3.
Proof. split; reflexivity. Qed.

(** The order of the due query is the order of the stored text: a
    [due_time] written with another UTC offset (here 10:00 at +02:00, that
    is 08:00 UTC) is compared as text with the scheduler's reading of
    09:00 UTC and is not selected. *)
Example due_time_order_is_textual :
  is_due (isoformat_utc (at_time 9 0 0 0))
         (sample_row "task_7" "alice" "2025-03-01T10:00:00+02:00" "pending") = false /\
  is_due (isoformat_utc (at_time 9 0 0 0))
         (sample_row "task_8" "alice" "2025-03-01T08:00:00+00:00" "pending") = true.
Proof. split; vm_compute; reflexivity. Qed.

(** * Further properties *)

(** ** More on create_task *)

Lemma string_of_uint_nonempty (d : Decimal.uint) : NilZero.string_of_uint d <> "".
Proof. destruct d; simpl; discriminate. Qed.

Lemma str_int_nonempty (n : Z) : str_int n <> "".
Proof.
  unfold str_int, NilZero.string_of_int. destruct (Z.to_int n).
  - apply string_of_uint_nonempty.
  - discriminate.
Qed.

Lemma str_prefix_nonempty (n : nat) (s : string) : s <> "" -> str_prefix (S n) s <> "".
Proof. destruct s; [congruence|]. simpl. discriminate. Qed.

Section CreateMore.
Context `{PythonRuntime}.

Lemma new_task_id_shape (title : string) (now : datetime) :
  exists suffix, new_task_id title now = "task_" +:+ suffix /\
                 1 <= String.length suffix <= 8.
Proof.
  unfold new_task_id. eexists. split; [reflexivity|]. split.
  - destruct (str_prefix 8 _) eqn:E; [|simpl; lia].
    exfalso. revert E. apply str_prefix_nonempty, str_int_nonempty.
  - apply substring_length_le.
Qed.

(** X1. When [create_task] returns a task, its id is "task_" followed by
    one to eight characters, no stored row had that id, the task is the
    request with that id, status pending, the UTC clock reading as creation
    date and no training data, and the store afterwards is the old rows
    followed by the task, with the push tokens unchanged. *)
Theorem create_task_stores_pending_task (request : CreateTaskRequest.t) (clk : clock)
    (database database' : Database) (task : Task.t) :
  create_task request clk database = (Ret task, database') ->
  (exists suffix, Task.id task = "task_" +:+ suffix /\ 1 <= String.length suffix <= 8) /\
  get_task (Task.id task) database = None /\
  task = new_Task (Task.id task) (isoformat_utc (utc_now clk)) "pending" request /\
  tasks database' = (tasks database ++ [task])%list /\
  push_tokens database' = push_tokens database /\
  get_task (Task.id task) database' = Some task.
Proof.
  intros Hrun.
  pose proof (create_task_returns_fresh_pending _ _ _ _ _ Hrun) as (_ & Hnone & _ & _ & Hget).
  apply create_task_returned in Hrun as (Htask & _ & ->).
  split; [rewrite Htask; apply new_task_id_shape|].
  split; [assumption|]. split; [rewrite Htask at 1; rewrite Htask; reflexivity|].
  split; [reflexivity|]. split; [reflexivity | assumption].
Qed.

(** X2. When a stored row already has the id that [create_task] builds
    for a request whose [early_reminder_offset_mins] is [None] or an [int]
    within signed 64 bits, so that [sqlite3] binds it, the handler raises
    the IntegrityError of the primary key and leaves the store exactly as
    it was. *)
Theorem create_task_rejects_stored_id (request : CreateTaskRequest.t) (clk : clock)
    (database : Database) (r : Task.t) :
  binds_integer (CreateTaskRequest.early_reminder_offset_mins request) = true ->
  r ∈ tasks database ->
  Task.id r = new_task_id (CreateTaskRequest.title request) (local_now clk) ->
  create_task request clk database
  = (Raise (IntegrityError "UNIQUE constraint failed: tasks.id"), database).
Proof.
  intros Hbinds Hin Hid.
  destruct (get_task (new_task_id (CreateTaskRequest.title request) (local_now clk)) database)
    as [r'|] eqn:E.
  - eapply create_task_id_taken; eassumption.
  - exfalso. apply get_task_none in E. rewrite Forall_forall in E.
    apply (E r); assumption.
Qed.

Lemma create_task_raises_integrity (request : CreateTaskRequest.t) (clk : clock)
    (database database' : Database) (e : exception) :
  binds_integer (CreateTaskRequest.early_reminder_offset_mins request) = true ->
  create_task request clk database = (Raise e, database') ->
  e = IntegrityError "UNIQUE constraint failed: tasks.id".
Proof.
  intros Hbinds. unfold create_task, insert_task.
  cbn [new_Task Task.early_reminder_offset_mins Task.id]. rewrite Hbinds. simpl.
  destruct (existsb _ (tasks database)); [|discriminate].
  intros Heq. injection Heq as <- _. reflexivity.
Qed.

Lemma create_all_returned (requests : list (CreateTaskRequest.t * clock)) (database : Database) :
  forallb (fun o => negb (is_raise o)) (create_all requests database).1 = true ->
  exists new_rows,
    (create_all requests database).1 = map Ret new_rows /\
    tasks (create_all requests database).2 = (tasks database ++ new_rows)%list /\
    push_tokens (create_all requests database).2 = push_tokens database /\
    map Task.id new_rows
    = map (fun x => new_task_id (CreateTaskRequest.title x.1) (local_now x.2)) requests /\
    NoDup (map Task.id new_rows) /\
    Forall (fun r => Forall (fun r' => Task.id r <> Task.id r') new_rows) (tasks database).
Proof.
  revert database. induction requests as [|[request clk] rest IH]; intros database; simpl.
  - intros _. exists []. rewrite app_nil_r. repeat split; [constructor|].
    apply Forall_forall. intros; constructor.
  - destruct (create_task request clk database) as [[task|e] database1] eqn:E.
    + specialize (IH database1).
      destruct (create_all rest database1) as [results database2]. simpl in *.
      intros Hall. destruct (IH Hall) as (new_rows & Hres & Htasks & Htok & Hids & Hnd & Hfresh).
      apply create_task_returned in E as (Htask & Hnew & ->). simpl in Htasks, Htok, Hfresh.
      apply Forall_app in Hfresh as [Hold Htask_fresh].
      apply Forall_inv in Htask_fresh.
      exists (task :: new_rows). rewrite Htasks, <- app_assoc, Hres. simpl.
      split; [reflexivity|]. split; [reflexivity|]. split; [assumption|].
      split; [rewrite Hids, Htask; reflexivity|]. split.
      * apply NoDup_cons. split; [|assumption].
        intros Hin. apply list_elem_of_fmap in Hin as (r & Hr & Hin).
        rewrite Forall_forall in Htask_fresh. apply (Htask_fresh r Hin). assumption.
      * rewrite Forall_forall in *. intros r Hr.
        constructor; [apply Hnew; assumption | apply Hold; assumption].
    + destruct (create_all rest database1) as [results database2]. simpl. discriminate.
Qed.

(** X3. In a run of creations that all return, the returned tasks are
    appended to the store in request order, their ids are pairwise
    distinct, none of them was the id of a row stored before the run, and
    the push tokens are unchanged. *)
Theorem create_all_returns_distinct_ids (requests : list (CreateTaskRequest.t * clock))
    (database : Database) :
  Forall (fun o => is_raise o = false) (create_all requests database).1 ->
  exists new_rows,
    (create_all requests database).1 = map Ret new_rows /\
    tasks (create_all requests database).2 = (tasks database ++ new_rows)%list /\
    push_tokens (create_all requests database).2 = push_tokens database /\
    NoDup (map Task.id new_rows) /\
    Forall (fun r => get_task (Task.id r) database = None) new_rows.
Proof.
  intros Hall.
  assert (Hb : forallb (fun o => negb (is_raise o)) (create_all requests database).1 = true).
  { apply forallb_forall. intros o Ho. rewrite Forall_forall in Hall.
    rewrite (Hall o); [reflexivity | apply list_elem_of_In; assumption]. }
  destruct (create_all_returned requests database Hb)
    as (new_rows & Hres & Htasks & Htok & _ & Hnd & Hfresh).
  exists new_rows. repeat split; try assumption.
  apply Forall_forall. intros r' Hr'. apply get_task_none.
  eapply Forall_impl; [exact Hfresh|]. simpl. intros r Hr Heq.
  rewrite Forall_forall in Hr. apply (Hr r' Hr'). congruence.
Qed.

(** X4. After a creation that returns, the list of the owner named in
    the request is the old list followed by the new task, and the list of
    every other user is unchanged. *)
Theorem list_tasks_after_create (request : CreateTaskRequest.t) (clk : clock)
    (database database' : Database) (task : Task.t) (user_id : string) :
  create_task request clk database = (Ret task, database') ->
  list_tasks_for_user user_id database'
  = if decide (CreateTaskRequest.user_id request = user_id)
    then (list_tasks_for_user user_id database ++ [task])%list
    else list_tasks_for_user user_id database.
Proof.
  intros Hrun. apply create_task_returned in Hrun as (Htask & _ & ->).
  unfold list_tasks_for_user, select_tasks_of_user. simpl.
  rewrite filter_app, filter_cons, filter_nil.
  replace (Task.user_id task) with (CreateTaskRequest.user_id request)
    by (rewrite Htask; reflexivity).
  destruct (decide (CreateTaskRequest.user_id request = user_id)); [reflexivity|].
  apply app_nil_r.
Qed.

End CreateMore.

(** ** More on complete_training and push tokens *)

Lemma rowcount_update_where_id (f : Task.t -> Task.t) (task_id target : string)
    (rows : list Task.t) :
  (forall r, Task.id (f r) = Task.id r) ->
  rowcount task_id (update_where_id f target rows) = rowcount task_id rows.
Proof.
  intros Hf. unfold rowcount, update_where_id.
  induction rows as [|r rows IH]; simpl; [reflexivity|].
  assert (Hid : has_id task_id (if has_id target r then f r else r) = has_id task_id r).
  { destruct (has_id target r); [|reflexivity]. unfold has_id. rewrite Hf. reflexivity. }
  rewrite Hid. destruct (has_id task_id r); simpl; rewrite IH; reflexivity.
Qed.

Lemma update_where_id_twice (f g : Task.t -> Task.t) (task_id : string) (rows : list Task.t) :
  (forall r, Task.id (f r) = Task.id r) ->
  (forall r, g (f r) = g r) ->
  update_where_id g task_id (update_where_id f task_id rows) = update_where_id g task_id rows.
Proof.
  intros Hf Hgf. unfold update_where_id. rewrite map_map. apply map_ext. intros r.
  destruct (has_id task_id r) eqn:E; [|rewrite E; reflexivity].
  assert (Hid : has_id task_id (f r) = true) by (apply has_id_true; rewrite Hf; apply has_id_true, E).
  rewrite Hid. apply Hgf.
Qed.

Section TrainingMore.
Context `{PythonRuntime}.

(** X5. For a stored task id [complete_task_training] returns
    {status: success, task_id} and the row found under that id afterwards
    has status trained, the serialized action plan and the transcript. *)
Theorem complete_training_stores_payload (task_id : string) (action_plan : list json)
    (transcript : string) (database : Database) (r : Task.t) :
  get_task task_id database = Some r ->
  (complete_task_training task_id action_plan transcript database).1
  = Ret (<["status" := "success"]> (<["task_id" := task_id]> ∅)) /\
  exists r',
    get_task task_id (complete_task_training task_id action_plan transcript database).2 = Some r' /\
    Task.status r' = "trained" /\
    Task.action_plan_json r' = Some (json_dumps (JArr action_plan)) /\
    Task.training_transcript r' = Some transcript.
Proof.
  intros Hget. rewrite (complete_training_known _ _ _ _ _ Hget). simpl.
  split; [reflexivity|]. unfold get_task in *. simpl.
  erewrite find_update_where_id by (try reflexivity; eassumption).
  assert (Hid : has_id task_id r = true) by (apply (find_some _ _ Hget)).
  rewrite Hid. eexists. split; [reflexivity|]. repeat split.
Qed.

(** X6. A second [complete_task_training] on the same id overwrites the
    first: reply and store are those of the second call alone, so repeating
    a call with the same payload changes nothing more (and on an unknown id
    both calls raise 404). *)
Theorem complete_training_last_write_wins (task_id : string) (plan1 plan2 : list json)
    (transcript1 transcript2 : string) (database : Database) :
  complete_task_training task_id plan2 transcript2
    (complete_task_training task_id plan1 transcript1 database).2
  = complete_task_training task_id plan2 transcript2 database.
Proof.
  destruct (get_task task_id database) as [r|] eqn:E.
  - rewrite complete_training_tasks.
    unfold complete_task_training, update_tasks. simpl.
    rewrite rowcount_update_where_id by reflexivity.
    rewrite update_where_id_twice by reflexivity.
    destruct (rowcount task_id (tasks database)) eqn:Hn; [|reflexivity].
    apply rowcount_zero, get_task_none in Hn. congruence.
  - apply get_task_none in E.
    rewrite (complete_training_absent task_id plan1 transcript1 database E). reflexivity.
Qed.

(** X7. [register_push_token] answers {status: success}; afterwards the
    user's token is the new one, the tokens of other users and all task
    rows are unchanged, and a registration replaces an earlier one of the
    same user: the store is as if only the later one had been made. *)
Theorem register_push_token_upsert (request : PushTokenRequest.t) (database : Database) :
  (register_push_token request database).1 = <["status" := "success"]> ∅ /\
  push_tokens (register_push_token request database).2 !! PushTokenRequest.user_id request
  = Some (PushTokenRequest.token request) /\
  (forall user_id, user_id <> PushTokenRequest.user_id request ->
     push_tokens (register_push_token request database).2 !! user_id
     = push_tokens database !! user_id) /\
  tasks (register_push_token request database).2 = tasks database /\
  (forall earlier,
     PushTokenRequest.user_id earlier = PushTokenRequest.user_id request ->
     (register_push_token request (register_push_token earlier database).2).2
     = (register_push_token request database).2).
Proof.
  unfold register_push_token. simpl. split; [reflexivity|]. split.
  - apply lookup_insert_eq.
  - split; [|split; [reflexivity|]].
    + intros user_id Hne. apply lookup_insert_ne. congruence.
    + intros earlier Heq. rewrite Heq, insert_insert_eq. reflexivity.
Qed.

End TrainingMore.

(** ** Reachable stores *)

Lemma tick_step_user_id (toks : gmap string string) (r r' : Task.t) :
  tick_step toks r r' -> Task.user_id r' = Task.user_id r.
Proof. intros [->|[-> _]]; reflexivity. Qed.

Lemma tick_step_row_keys (toks : gmap string string) (rows rows' : list Task.t) :
  Forall2 (tick_step toks) rows rows' -> row_keys rows' = row_keys rows.
Proof.
  induction 1 as [|r r' rows rows' Hr _ IH]; simpl; [reflexivity|].
  rewrite IH, (tick_step_id _ _ _ Hr), (tick_step_user_id _ _ _ Hr). reflexivity.
Qed.

Lemma tick_step_well_formed (toks : gmap string string) (rows rows' : list Task.t) :
  Forall2 (tick_step toks) rows rows' ->
  Forall well_formed_row rows -> Forall well_formed_row rows'.
Proof.
  induction 1 as [|r r' rows rows' Hr _ IH]; intros Hall; [constructor|].
  inversion Hall as [|? ? [Hst Hid] Hall']; subst. constructor; [|apply IH; assumption].
  destruct Hr as [->|(-> & _ & _)]; [split; assumption|].
  split; [right; right; reflexivity | exact Hid].
Qed.

Lemma row_keys_listing (user_id : string) (rows rows' : list Task.t) :
  row_keys rows = row_keys rows' ->
  map Task.id (filter (fun r => Task.user_id r = user_id) rows)
  = map Task.id (filter (fun r => Task.user_id r = user_id) rows').
Proof.
  revert rows'. induction rows as [|r rows IH]; intros [|r' rows']; simpl;
    try discriminate; [reflexivity|].
  intros Heq. injection Heq as Hid Hu Hrest.
  rewrite !filter_cons, Hu.
  destruct (decide (Task.user_id r' = user_id)); simpl; [rewrite Hid; f_equal|]; apply IH, Hrest.
Qed.

Section SequencesMore.
Context `{PythonRuntime}.
Variable send : provider.

Lemma run_operation_row_keys (w : World) (op : operation) :
  primary_key (db w) ->
  exists added,
    row_keys (tasks (db (run_operation send w op))) = (row_keys (tasks (db w)) ++ added)%list.
Proof.
  intros Hpk. destruct op as [request clk|task_id plan transcript|request|now]; simpl.
  - destruct (create_task request clk (db w)) as [[task|e] database'] eqn:E; simpl.
    + apply create_task_returned in E as (_ & _ & ->). simpl.
      exists (row_keys [task]). unfold row_keys. apply map_app.
    + apply create_task_raised in E. subst. exists []. rewrite app_nil_r. reflexivity.
  - rewrite complete_training_tasks. simpl. exists []. rewrite app_nil_r.
    unfold row_keys, update_where_id. rewrite map_map. apply map_ext.
    intros r. destruct (has_id task_id r); reflexivity.
  - exists []. rewrite app_nil_r. reflexivity.
  - destruct (check_reminders_inv send now w Hpk) as (_ & Hrows & _).
    exists []. rewrite app_nil_r. eapply tick_step_row_keys. eassumption.
Qed.

Lemma run_operations_row_keys (ops : list operation) (w : World) :
  primary_key (db w) ->
  exists added,
    row_keys (tasks (db (run_operations send ops w))) = (row_keys (tasks (db w)) ++ added)%list.
Proof.
  revert w. unfold run_operations. induction ops as [|op ops IH]; intros w Hpk; simpl.
  - exists []. rewrite app_nil_r. reflexivity.
  - destruct (run_operation_row_keys w op Hpk) as (added1 & H1).
    destruct (IH (run_operation send w op)) as (added2 & H2).
    + apply run_operation_primary_key. assumption.
    + exists (added1 ++ added2)%list. rewrite H2, H1, app_assoc. reflexivity.
Qed.

(** X8. No sequence of operations deletes, reorders or reassigns a task:
    the ids listed for a user before the sequence are a prefix of the ids
    listed for that user after it. *)
Theorem tasks_never_disappear (ops : list operation) (w : World) (user_id : string) :
  primary_key (db w) ->
  exists added,
    map Task.id (list_tasks_for_user user_id (db (run_operations send ops w)))
    = (map Task.id (list_tasks_for_user user_id (db w)) ++ added)%list.
Proof.
  intros Hpk. destruct (run_operations_row_keys ops w Hpk) as (added & Hkeys).
  unfold list_tasks_for_user, select_tasks_of_user.
  set (rows' := tasks (db (run_operations send ops w))) in *.
  assert (Hsplit : exists old new, rows' = (old ++ new)%list /\
                                   row_keys old = row_keys (tasks (db w))).
  { exists (take (length (tasks (db w))) rows'), (drop (length (tasks (db w))) rows').
    split; [symmetry; apply take_drop|].
    unfold row_keys in *. rewrite <- firstn_map, Hkeys.
    apply take_app_length'. symmetry. apply length_map. }
  destruct Hsplit as (old & new & -> & Hold).
  rewrite filter_app, map_app.
  rewrite (row_keys_listing user_id old (tasks (db w)) Hold). eauto.
Qed.

Lemma run_operation_well_formed (w : World) (op : operation) :
  well_formed_store (db w) -> well_formed_store (db (run_operation send w op)).
Proof.
  intros [Hpk Hrows]. split; [apply run_operation_primary_key; assumption|].
  destruct op as [request clk|task_id plan transcript|request|now]; simpl.
  - destruct (create_task request clk (db w)) as [[task|e] database'] eqn:E; simpl.
    + apply create_task_returned in E as (Htask & _ & ->). simpl.
      apply Forall_app. split; [assumption|]. constructor; [|constructor].
      rewrite Htask. split; [left; reflexivity | apply new_task_id_shape].
    + apply create_task_raised in E. subst. assumption.
  - rewrite complete_training_tasks. simpl. unfold update_where_id.
    apply Forall_forall. intros r' Hin. apply list_elem_of_fmap in Hin as (r & -> & Hin).
    rewrite Forall_forall in Hrows. specialize (Hrows r Hin).
    destruct (has_id task_id r); [|assumption].
    destruct Hrows as [_ Hid]. split; [right; left; reflexivity | exact Hid].
  - assumption.
  - destruct (check_reminders_inv send now w Hpk) as (_ & Hstep & _).
    eapply tick_step_well_formed; eassumption.
Qed.

(** X9. In every store reached from the empty database by create,
    complete_training, register_push_token and scheduler ticks, ids are
    unique, every id is "task_" followed by one to eight characters, and
    every status is pending, trained or notified. *)
Theorem reachable_store_well_formed (ops : list operation) :
  well_formed_store (db (run_operations send ops empty_world)).
Proof.
  assert (Hgen : forall w, well_formed_store (db w) ->
                           well_formed_store (db (run_operations send ops w))).
  { unfold run_operations. induction ops as [|op ops IH]; intros w Hw; simpl; [assumption|].
    apply IH, run_operation_well_formed, Hw. }
  apply Hgen. split; [constructor | constructor].
Qed.

End SequencesMore.

(** ** More on the scheduler *)

Lemma notify_each_log (send : provider) (due_reminders : list (string * string * string))
    (conn : Connection) (log : list delivery) :
  (notify_each send due_reminders conn log).2
  = (log ++ omap (reminder_call (push_tokens (working conn))) due_reminders)%list.
Proof.
  revert conn log. induction due_reminders as [|[[task_id user_id] title] rest IH];
    intros conn log; simpl.
  - rewrite app_nil_r. reflexivity.
  - unfold reminder_call at 1. simpl.
    destruct (push_tokens (working conn) !! user_id) as [push_token|].
    + destruct (send log _) as [[]|e]; rewrite IH, <- app_assoc; reflexivity.
    + apply IH.
Qed.

Lemma mark_notified_update (ids : list string) (task_id : string) (rows : list Task.t) :
  map (mark_notified ids) (update_where_id (set_status "notified") task_id rows)
  = map (mark_notified (task_id :: ids)) rows.
Proof.
  unfold update_where_id. rewrite map_map. apply map_ext. intros r.
  unfold mark_notified, has_id. simpl.
  destruct (String.eqb (Task.id r) task_id); simpl; [|reflexivity].
  destruct (existsb _ ids); reflexivity.
Qed.

Lemma notify_each_rows (send : provider) (due_reminders : list (string * string * string))
    (conn : Connection) (log : list delivery) :
  committed conn = working conn ->
  committed (notify_each send due_reminders conn log).1
  = {| tasks := map (mark_notified
                       (delivered send (push_tokens (working conn)) due_reminders log))
                    (tasks (working conn));
       push_tokens := push_tokens (working conn) |}.
Proof.
  revert conn log. induction due_reminders as [|[[task_id user_id] title] rest IH];
    intros conn log Hc; simpl.
  - rewrite Hc. unfold mark_notified. simpl. rewrite map_id.
    destruct (working conn); reflexivity.
  - unfold reminder_call. simpl.
    destruct (push_tokens (working conn) !! user_id) as [push_token|]; simpl.
    + unfold reminder_message.
      destruct (send log _) as [[]|e].
      * rewrite IH by reflexivity. simpl. rewrite mark_notified_update. reflexivity.
      * apply IH. assumption.
    + apply IH. assumption.
Qed.

(** The calls of one tick, whatever the provider answers. *)
Lemma check_reminders_calls (send : provider) (now : datetime) (w : World) :
  sent (check_reminders send now w)
  = (sent w ++ omap (reminder_call (push_tokens (db w)))
                    (select_due_reminders (isoformat_utc now) (db w)))%list.
Proof.
  unfold check_reminders. change (working (connect (db w))) with (db w).
  pose proof (notify_each_log send (select_due_reminders (isoformat_utc now) (db w))
                (connect (db w)) (sent w)) as Hlog.
  destruct (notify_each send _ (connect (db w)) (sent w)) as [conn log]. simpl in Hlog.
  destruct (select_due_reminders (isoformat_utc now) (db w)); simpl.
  - rewrite app_nil_r. reflexivity.
  - exact Hlog.
Qed.

Lemma check_reminders_rows (send : provider) (now : datetime) (w : World) :
  db (check_reminders send now w)
  = {| tasks := map (mark_notified
                       (delivered send (push_tokens (db w))
                          (select_due_reminders (isoformat_utc now) (db w)) (sent w)))
                    (tasks (db w));
       push_tokens := push_tokens (db w) |}.
Proof.
  unfold check_reminders. change (working (connect (db w))) with (db w).
  pose proof (notify_each_rows send (select_due_reminders (isoformat_utc now) (db w))
                (connect (db w)) (sent w) eq_refl) as Hrows.
  destruct (notify_each send _ (connect (db w)) (sent w)) as [conn log]. simpl in Hrows.
  destruct (select_due_reminders (isoformat_utc now) (db w)); simpl.
  - unfold mark_notified. simpl. rewrite map_id. destruct (db w); reflexivity.
  - exact Hrows.
Qed.

Lemma existsb_eqb_In (x : string) (l : list string) :
  existsb (String.eqb x) l = true <-> In x l.
Proof.
  rewrite existsb_exists. split.
  - intros (y & Hin & Heq). apply String.eqb_eq in Heq. subst. assumption.
  - intros Hin. exists x. split; [assumption | apply String.eqb_refl].
Qed.

Lemma delivered_sub (send : provider) (toks : gmap string string)
    (due_reminders : list (string * string * string)) (log : list delivery) (task_id : string) :
  In task_id (delivered send toks due_reminders log) ->
  exists x call, In x due_reminders /\ x.1.1 = task_id /\ reminder_call toks x = Some call /\
                 exists log', send log' call.2 = Ret tt.
Proof.
  revert log. induction due_reminders as [|x rest IH]; intros log; simpl; [contradiction|].
  destruct (reminder_call toks x) as [call|] eqn:Ecall.
  - destruct (send log call.2) as [[]|e] eqn:Esend.
    + intros [<-|Hin].
      * exists x, call. repeat split; auto. exists log. assumption.
      * destruct (IH _ Hin) as (y & c & Hy & ?). exists y, c. auto.
    + intros Hin. destruct (IH _ Hin) as (y & c & Hy & ?). exists y, c. auto.
  - intros Hin. destruct (IH _ Hin) as (y & c & Hy & ?). exists y, c. auto.
Qed.

Lemma delivered_when_returns (send : provider) (toks : gmap string string)
    (due_reminders : list (string * string * string)) (log : list delivery)
    (x : string * string * string) (call : delivery) :
  In x due_reminders ->
  reminder_call toks x = Some call ->
  (forall log', send log' call.2 = Ret tt) ->
  In x.1.1 (delivered send toks due_reminders log).
Proof.
  intros Hin Hcall Hsend. revert log.
  induction due_reminders as [|y rest IH]; intros log; simpl; [contradiction|].
  destruct Hin as [->|Hin].
  - rewrite Hcall, Hsend. left. reflexivity.
  - destruct (reminder_call toks y) as [c|]; [destruct (send log c.2) as [[]|e]|];
      try right; apply IH; assumption.
Qed.

Lemma due_with_id (current_time_iso : string) (database : Database) (r : Task.t)
    (x : string * string * string) :
  primary_key database -> r ∈ tasks database ->
  In x (select_due_reminders current_time_iso database) -> x.1.1 = Task.id r ->
  is_due current_time_iso r = true /\ x = (Task.id r, Task.user_id r, Task.title r).
Proof.
  intros Hpk Hin Hx Hid. apply list_elem_of_In, select_due_reminders_elem in Hx
    as (r2 & Hin2 & Hdue & ->). simpl in Hid.
  assert (r2 = r) by (apply (primary_key_same_id database); assumption). subst r2. auto.
Qed.

Lemma reminder_call_row (toks : gmap string string) (r : Task.t) :
  reminder_call toks (Task.id r, Task.user_id r, Task.title r)
  = match toks !! Task.user_id r with
    | Some push_token => Some (Task.id r, reminder_message (Task.title r) push_token)
    | None => None
    end.
Proof. reflexivity. Qed.

Lemma omap_cons_match {A B : Type} (f : A -> option B) (x : A) (l : list A) :
  omap f (x :: l) = match f x with Some y => y :: omap f l | None => omap f l end.
Proof. reflexivity. Qed.

Lemma deliveries_for_cons (task_id : string) (d : delivery) (log : list delivery) :
  deliveries_for task_id (d :: log)
  = if String.eqb d.1 task_id then d :: deliveries_for task_id log
    else deliveries_for task_id log.
Proof. reflexivity. Qed.

(** The calls of one tick that are for a given task. *)
Lemma calls_for_task (toks : gmap string string) (current_time_iso : string)
    (rows : list Task.t) (task_id : string) :
  NoDup (map Task.id rows) ->
  deliveries_for task_id
    (omap (reminder_call toks)
          (map (fun r => (Task.id r, Task.user_id r, Task.title r))
               (List.filter (is_due current_time_iso) rows)))
  = match List.find (has_id task_id) rows with
    | Some r =>
        if is_due current_time_iso r
        then match toks !! Task.user_id r with
             | Some push_token => [(Task.id r, reminder_message (Task.title r) push_token)]
             | None => []
             end
        else []
    | None => []
    end.
Proof.
  induction rows as [|a rows IH]; intros Hnd; [reflexivity|].
  change (map Task.id (a :: rows)) with (Task.id a :: map Task.id rows) in Hnd.
  apply NoDup_cons in Hnd as [Ha Hnd]. specialize (IH Hnd).
  assert (Hrest : has_id task_id a = true -> List.find (has_id task_id) rows = None).
  { intros Hid. apply has_id_true in Hid.
    destruct (List.find (has_id task_id) rows) as [b|] eqn:E; [|reflexivity].
    exfalso. apply find_some in E as [Hb Hidb]. apply has_id_true in Hidb.
    apply Ha. apply list_elem_of_fmap. exists b. split; [congruence|].
    apply list_elem_of_In. assumption. }
  cbn [List.filter List.find].
  destruct (has_id task_id a) eqn:Eid.
  - rewrite (Hrest eq_refl) in IH.
    destruct (is_due current_time_iso a); [|exact IH].
    cbn [map]. rewrite omap_cons_match, reminder_call_row.
    destruct (toks !! Task.user_id a) as [push_token|]; [|exact IH].
    rewrite deliveries_for_cons. cbn [fst]. unfold has_id in Eid. rewrite Eid, IH. reflexivity.
  - destruct (is_due current_time_iso a); [|exact IH].
    cbn [map]. rewrite omap_cons_match, reminder_call_row.
    destruct (toks !! Task.user_id a) as [push_token|]; [|exact IH].
    rewrite deliveries_for_cons. cbn [fst]. unfold has_id in Eid. rewrite Eid. exact IH.
Qed.

Lemma calls_count (toks : gmap string string) (current_time_iso : string)
    (rows : list Task.t) :
  length (omap (reminder_call toks)
            (map (fun r => (Task.id r, Task.user_id r, Task.title r))
                 (List.filter (is_due current_time_iso) rows)))
  = length (List.filter (has_token toks) (List.filter (is_due current_time_iso) rows)).
Proof.
  induction rows as [|r rows IH]; [reflexivity|].
  cbn [List.filter]. destruct (is_due current_time_iso r); [|exact IH].
  cbn [map List.filter]. rewrite omap_cons_match, reminder_call_row.
  unfold has_token at 1.
  destruct (toks !! Task.user_id r); cbn [length]; rewrite IH; reflexivity.
Qed.

(** X10. The provider calls of one tick do not depend on how the sends
    end: they are, in store order, one call for each due pending task
    whose owner has a token, titled "Remo Reminder!", with the task title as
    body and the owner's token; a due task without a token gets none, so
    the tick makes as many calls as there are due pending tasks with a
    token. *)
Theorem tick_provider_calls (send : provider) (now : datetime) (w : World) :
  sent (check_reminders send now w)
  = (sent w ++ omap (reminder_call (push_tokens (db w)))
                    (select_due_reminders (isoformat_utc now) (db w)))%list /\
  length (sent (check_reminders send now w))
  = length (sent w)
    + length (List.filter (has_token (push_tokens (db w)))
                (List.filter (is_due (isoformat_utc now)) (tasks (db w)))).
Proof.
  rewrite check_reminders_calls. split; [reflexivity|].
  rewrite length_app. f_equal. apply calls_count.
Qed.

Lemma deliveries_for_app_any (task_id : string) (log extra : list delivery) :
  deliveries_for task_id (log ++ extra)
  = (deliveries_for task_id log ++ deliveries_for task_id extra)%list.
Proof. unfold deliveries_for. apply List.filter_app. Qed.

Lemma tick_calls_for_row (send : provider) (now : datetime) (w : World) (r : Task.t) :
  primary_key (db w) -> r ∈ tasks (db w) ->
  deliveries_for (Task.id r) (sent (check_reminders send now w))
  = (deliveries_for (Task.id r) (sent w) ++
     if is_due (isoformat_utc now) r
     then match push_tokens (db w) !! Task.user_id r with
          | Some push_token => [(Task.id r, reminder_message (Task.title r) push_token)]
          | None => []
          end
     else [])%list.
Proof.
  intros Hpk Hin. rewrite check_reminders_calls, deliveries_for_app_any. f_equal.
  unfold select_due_reminders. rewrite calls_for_task by exact Hpk.
  pose proof (primary_key_get_task _ _ Hpk Hin) as Hget. unfold get_task in Hget.
  rewrite Hget. reflexivity.
Qed.

Lemma mark_notified_row (ids : list string) (rows : list Task.t) (i : nat) (r : Task.t) :
  rows !! i = Some r -> map (mark_notified ids) rows !! i = Some (mark_notified ids r).
Proof. intros Hi. rewrite list_lookup_fmap, Hi. reflexivity. Qed.

Lemma check_reminders_row_cases (send : provider) (now : datetime) (w : World) :
  primary_key (db w) ->
  push_tokens (db (check_reminders send now w)) = push_tokens (db w) /\
  length (tasks (db (check_reminders send now w))) = length (tasks (db w)) /\
  forall (i : nat) (r : Task.t),
    tasks (db w) !! i = Some r ->
    tasks (db (check_reminders send now w)) !! i = Some r \/
    (tasks (db (check_reminders send now w)) !! i = Some (set_status "notified" r) /\
     is_due (isoformat_utc now) r = true /\
     exists push_token,
       push_tokens (db w) !! Task.user_id r = Some push_token /\
       exists log, send log (reminder_message (Task.title r) push_token) = Ret tt).
Proof.
  intros Hpk. rewrite check_reminders_rows. simpl.
  split; [reflexivity|]. split; [apply length_map|].
  intros i r Hi. rewrite (mark_notified_row _ _ _ _ Hi). unfold mark_notified.
  destruct (existsb _ _) eqn:E; [right | left; reflexivity].
  split; [reflexivity|].
  apply existsb_eqb_In, delivered_sub in E as (x & call & Hx & Hid & Hcall & log & Hsend).
  assert (Hin : r ∈ tasks (db w)) by (apply list_elem_of_lookup; eauto).
  destruct (due_with_id _ _ r x Hpk Hin Hx Hid) as [Hdue ->].
  split; [assumption|]. rewrite reminder_call_row in Hcall.
  destruct (push_tokens (db w) !! Task.user_id r) as [push_token|]; [|discriminate].
  injection Hcall as <-. exists push_token. split; [reflexivity|]. exists log. exact Hsend.
Qed.

(** X13. A due pending task whose owner has a token and whose message the
    provider accepts is notified by the tick: the row found under its id is
    the old row with status notified, and the tick made exactly one call for
    it, with its title and the owner's token. *)
Theorem tick_notifies_due_task (send : provider) (now : datetime) (w : World)
    (r : Task.t) (push_token : string) :
  primary_key (db w) ->
  r ∈ tasks (db w) ->
  is_due (isoformat_utc now) r = true ->
  push_tokens (db w) !! Task.user_id r = Some push_token ->
  (forall log, send log (reminder_message (Task.title r) push_token) = Ret tt) ->
  get_task (Task.id r) (db (check_reminders send now w)) = Some (set_status "notified" r) /\
  deliveries_for (Task.id r) (sent (check_reminders send now w))
  = (deliveries_for (Task.id r) (sent w) ++
     [(Task.id r, reminder_message (Task.title r) push_token)])%list.
Proof.
  intros Hpk Hin Hdue Htok Hsend. split.
  - assert (Hpk' : primary_key (db (check_reminders send now w)))
      by (apply check_reminders_primary_key; assumption).
    assert (Hin' : set_status "notified" r ∈ tasks (db (check_reminders send now w))).
    { rewrite check_reminders_rows. simpl.
      apply list_elem_of_fmap. exists r. split; [|assumption].
      unfold mark_notified.
      assert (Hd : In (Task.id r)
                      (delivered send (push_tokens (db w))
                         (select_due_reminders (isoformat_utc now) (db w)) (sent w))).
      { apply (delivered_when_returns send (push_tokens (db w)) _ (sent w)
                 (Task.id r, Task.user_id r, Task.title r)
                 (Task.id r, reminder_message (Task.title r) push_token)).
        - apply list_elem_of_In, select_due_reminders_elem. exists r. auto.
        - rewrite reminder_call_row, Htok. reflexivity.
        - exact Hsend. }
      apply existsb_eqb_In in Hd. rewrite Hd. reflexivity. }
    apply (primary_key_get_task _ _ Hpk' Hin').
  - rewrite (tick_calls_for_row send now w r Hpk Hin), Hdue, Htok. reflexivity.
Qed.


(** X15. Whatever the provider does, a tick keeps the push tokens and the
    number and order of the rows; a row is either unchanged or differs only
    in its status, which goes to notified, and only if the task was due
    and pending, its owner has a token and a send of its message returned. *)
Theorem tick_changes_only_due_status (send : provider) (now : datetime) (w : World) :
  primary_key (db w) ->
  push_tokens (db (check_reminders send now w)) = push_tokens (db w) /\
  length (tasks (db (check_reminders send now w))) = length (tasks (db w)) /\
  forall (i : nat) (r : Task.t),
    tasks (db w) !! i = Some r ->
    tasks (db (check_reminders send now w)) !! i = Some r \/
    (tasks (db (check_reminders send now w)) !! i = Some (set_status "notified" r) /\
     is_due (isoformat_utc now) r = true /\
     exists push_token,
       push_tokens (db w) !! Task.user_id r = Some push_token /\
       exists log, send log (reminder_message (Task.title r) push_token) = Ret tt).
Proof. exact (check_reminders_row_cases send now w). Qed.

(** X11. When every send returns, one tick marks as notified exactly the
    pending tasks that are due and whose owner has a token; every other row
    and the push tokens are unchanged. *)
Theorem tick_with_provider_up (send : provider) (now : datetime) (w : World) :
  primary_key (db w) ->
  (forall log message, send log message = Ret tt) ->
  db (check_reminders send now w)
  = {| tasks := map (fun r => if is_due (isoformat_utc now) r && has_token (push_tokens (db w)) r
                              then set_status "notified" r else r)
                    (tasks (db w));
       push_tokens := push_tokens (db w) |}.
Proof.
  intros Hpk Hsend. rewrite check_reminders_rows. f_equal.
  apply map_ext_in. intros r Hin. apply list_elem_of_In in Hin.
  unfold mark_notified, has_token.
  destruct (existsb _ _) eqn:E.
  - apply existsb_eqb_In, delivered_sub in E as (x & call & Hx & Hid & Hcall & _).
    destruct (due_with_id _ _ r x Hpk Hin Hx Hid) as [Hdue ->].
    rewrite reminder_call_row in Hcall. rewrite Hdue.
    destruct (push_tokens (db w) !! Task.user_id r); [reflexivity | discriminate].
  - destruct (is_due (isoformat_utc now) r) eqn:Hdue; [|reflexivity].
    destruct (push_tokens (db w) !! Task.user_id r) as [push_token|] eqn:Htok; [|reflexivity].
    exfalso.
    assert (Hd : In (Task.id r)
                    (delivered send (push_tokens (db w))
                       (select_due_reminders (isoformat_utc now) (db w)) (sent w))).
    { apply (delivered_when_returns send (push_tokens (db w)) _ (sent w)
               (Task.id r, Task.user_id r, Task.title r)
               (Task.id r, reminder_message (Task.title r) push_token)).
      - apply list_elem_of_In, select_due_reminders_elem. exists r. auto.
      - rewrite reminder_call_row, Htok. reflexivity.
      - intros log'. apply Hsend. }
    apply existsb_eqb_In in Hd. congruence.
Qed.

Lemma check_reminders_provider_down (send : provider) (now : datetime) (w : World) :
  (forall log message, exists e, send log message = Raise e) ->
  db (check_reminders send now w) = db w.
Proof.
  intros Hsend. rewrite check_reminders_rows.
  destruct (delivered send (push_tokens (db w))
              (select_due_reminders (isoformat_utc now) (db w)) (sent w)) as [|task_id ids] eqn:E.
  - unfold mark_notified. simpl. rewrite map_id. destruct (db w); reflexivity.
  - exfalso.
    destruct (delivered_sub send (push_tokens (db w))
                (select_due_reminders (isoformat_utc now) (db w)) (sent w) task_id)
      as (x & call & _ & _ & _ & log & Hret).
    + rewrite E. left. reflexivity.
    + destruct (Hsend log call.2) as [e He]. congruence.
Qed.

(** X12. When every send raises, any number of ticks leaves the database
    unchanged, and each tick repeats the calls for the same due tasks:
    failed deliveries are retried on every tick, without limit. *)
Theorem ticks_with_provider_down (send : provider) (nows : list datetime) (w : World) :
  (forall log message, exists e, send log message = Raise e) ->
  db (repeat_check_reminders send nows w) = db w /\
  sent (repeat_check_reminders send nows w)
  = (sent w ++ concat (map (fun now => omap (reminder_call (push_tokens (db w)))
                                          (select_due_reminders (isoformat_utc now) (db w)))
                           nows))%list.
Proof.
  intros Hsend. revert w. unfold repeat_check_reminders.
  induction nows as [|now nows IH]; intros w; simpl.
  - rewrite app_nil_r. auto.
  - destruct (IH (check_reminders send now w)) as [Hdb Hsent].
    rewrite Hdb, Hsent, check_reminders_calls, (check_reminders_provider_down send now w Hsend).
    rewrite <- app_assoc. auto.
Qed.

Lemma check_reminders_not_pending (send : provider) (now : datetime) (w : World) (r : Task.t) :
  primary_key (db w) ->
  r ∈ tasks (db w) ->
  Task.status r <> "pending" ->
  r ∈ tasks (db (check_reminders send now w)) /\
  deliveries_for (Task.id r) (sent (check_reminders send now w))
  = deliveries_for (Task.id r) (sent w).
Proof.
  intros Hpk Hin Hst.
  assert (Hdue : is_due (isoformat_utc now) r = false).
  { destruct (is_due (isoformat_utc now) r) eqn:E; [|reflexivity].
    apply is_due_spec in E as [_ E]. contradiction. }
  split.
  - apply list_elem_of_lookup in Hin as [i Hi].
    destruct (check_reminders_row_cases send now w Hpk) as (_ & _ & Hrows).
    apply list_elem_of_lookup. exists i.
    destruct (Hrows i r Hi) as [Hsame|(_ & Hd & _)]; [assumption | congruence].
  - rewrite (tick_calls_for_row send now w r Hpk Hin), Hdue. apply app_nil_r.
Qed.

(** X16. A task whose status is not pending (trained, or already
    notified) is never touched by the scheduler: after any number of ticks
    its row is the same and no provider call was made for it, so a
    delivered reminder is not sent a second time. *)
Theorem ticks_skip_task_not_pending (send : provider) (nows : list datetime)
    (w : World) (r : Task.t) :
  primary_key (db w) ->
  r ∈ tasks (db w) ->
  Task.status r <> "pending" ->
  get_task (Task.id r) (db (repeat_check_reminders send nows w)) = Some r /\
  deliveries_for (Task.id r) (sent (repeat_check_reminders send nows w))
  = deliveries_for (Task.id r) (sent w).
Proof.
  intros Hpk Hin Hst.
  assert (Hgoal : primary_key (db (repeat_check_reminders send nows w)) /\
                  r ∈ tasks (db (repeat_check_reminders send nows w)) /\
                  deliveries_for (Task.id r) (sent (repeat_check_reminders send nows w))
                  = deliveries_for (Task.id r) (sent w)).
  { revert w Hpk Hin. unfold repeat_check_reminders.
    induction nows as [|now nows IH]; intros w Hpk Hin; simpl; [auto|].
    destruct (check_reminders_not_pending send now w r Hpk Hin Hst) as [Hin' Hlog'].
    destruct (IH (check_reminders send now w)) as (Hpk2 & Hin2 & Hlog2).
    - apply check_reminders_primary_key; assumption.
    - assumption.
    - rewrite Hlog2, Hlog'. auto. }
  destruct Hgoal as (Hpk' & Hin' & Hlog').
  rewrite (primary_key_get_task _ r Hpk' Hin'). auto.
Qed.

(** ** Execute endpoints *)

Lemma collect_no_final (final_result : option string) (events : list Event)
    (failure : option exception) :
  no_final events ->
  collect_final_result final_result events failure
  = match failure with Some e => Raise e | None => Ret final_result end.
Proof.
  induction 1 as [|event rest Hev _ IH]; simpl; [reflexivity|].
  rewrite Hev. exact IH.
Qed.

Lemma collect_app_readable (final_result : option string) (before rest : list Event)
    (failure : option exception) :
  finals_readable before ->
  exists final_result',
    collect_final_result final_result (before ++ rest) failure
    = collect_final_result final_result' rest failure.
Proof.
  intros Hread. revert final_result.
  induction Hread as [|event before Hev _ IH]; intros final_result; simpl; [eauto|].
  destruct (is_final_response event).
  - destruct (Hev eq_refl) as [text ->]. apply IH.
  - apply IH.
Qed.

Lemma collect_last_final (final_result text : option string) (before after : list Event)
    (event : Event) (failure : option exception) :
  finals_readable before ->
  is_final_response event = true ->
  first_part_text event = Ret text ->
  no_final after ->
  collect_final_result final_result (before ++ event :: after) failure
  = match failure with Some e => Raise e | None => Ret text end.
Proof.
  intros Hread Hfinal Htext Hafter.
  destruct (collect_app_readable final_result before (event :: after) failure Hread)
    as [final_result' ->].
  simpl. rewrite Hfinal, Htext. apply collect_no_final. assumption.
Qed.

Lemma collect_first_unreadable (final_result : option string) (before after : list Event)
    (event : Event) (failure : option exception) (e : exception) :
  finals_readable before ->
  is_final_response event = true ->
  first_part_text event = Raise e ->
  collect_final_result final_result (before ++ event :: after) failure = Raise e.
Proof.
  intros Hread Hfinal Htext.
  destruct (collect_app_readable final_result before (event :: after) failure Hread)
    as [final_result' ->].
  simpl. rewrite Hfinal, Htext. reflexivity.
Qed.

(** X17. When the run ends without a final-response event, both execute
    handlers answer status completed with their fixed default text. *)
Theorem execute_without_final_response (session_id : string) (events : list Event) :
  no_final events ->
  execute_browse_task session_id {| yielded := events; failure := None |}
  = Ret (<["status" := JStr "completed"]>
           (<["session_id" := JStr session_id]>
              (<["agent_result" := JStr "Agent did not produce a final response."]> ∅))) /\
  execute_thinker_task session_id {| yielded := events; failure := None |}
  = Ret (<["status" := JStr "completed"]>
           (<["final_result" := JStr "Thinker agent finished without a final text response."]>
              (<["session_id" := JStr session_id]> ∅))).
Proof.
  intros Hno. unfold execute_browse_task, execute_thinker_task. simpl.
  rewrite !collect_no_final by assumption. split; reflexivity.
Qed.

(** X18. The execute handlers report the text of the last
    final-response event: earlier final responses are overwritten, events
    that are not final are ignored (their content is never read), and a
    last final response without text gives null. *)
Theorem execute_reports_last_final_response (session_id : string) (text : option string)
    (before after : list Event) (event : Event) :
  finals_readable before ->
  is_final_response event = true ->
  first_part_text event = Ret text ->
  no_final after ->
  execute_browse_task session_id {| yielded := before ++ event :: after; failure := None |}
  = Ret (<["status" := JStr "completed"]>
           (<["session_id" := JStr session_id]>
              (<["agent_result" := json_of_text text]> ∅))) /\
  execute_thinker_task session_id {| yielded := before ++ event :: after; failure := None |}
  = Ret (<["status" := JStr "completed"]>
           (<["final_result" := json_of_text text]>
              (<["session_id" := JStr session_id]> ∅))).
Proof.
  intros Hread Hfinal Htext Hafter. unfold execute_browse_task, execute_thinker_task. simpl.
  rewrite !(collect_last_final _ text before after event None) by assumption.
  split; reflexivity.
Qed.

(** X19. A final-response event whose first text part cannot be read
    (no content, no parts) makes both execute handlers raise that exception
    at this event, whatever follows it in the run. *)
Theorem execute_raises_on_unreadable_final (session_id : string) (before after : list Event)
    (event : Event) (run_failure : option exception) (e : exception) :
  finals_readable before ->
  is_final_response event = true ->
  first_part_text event = Raise e ->
  execute_browse_task session_id {| yielded := before ++ event :: after; failure := run_failure |}
  = Raise e /\
  execute_thinker_task session_id {| yielded := before ++ event :: after; failure := run_failure |}
  = Raise e.
Proof.
  intros Hread Hfinal Htext. unfold execute_browse_task, execute_thinker_task. simpl.
  rewrite !(collect_first_unreadable _ before after event run_failure e) by assumption.
  split; reflexivity.
Qed.

(** X20. The execute handlers do not catch a failure of the runner: when
    the run ends with an exception, both handlers raise it and answer
    nothing, whatever final responses were collected before. *)
Theorem execute_propagates_runner_failure (session_id : string) (events : list Event)
    (e : exception) :
  finals_readable events ->
  execute_browse_task session_id {| yielded := events; failure := Some e |} = Raise e /\
  execute_thinker_task session_id {| yielded := events; failure := Some e |} = Raise e.
Proof.
  intros Hread. unfold execute_browse_task, execute_thinker_task. simpl.
  assert (Hc : forall final_result, collect_final_result final_result events (Some e) = Raise e).
  { intros final_result.
    destruct (collect_app_readable final_result events [] (Some e) Hread) as [final_result' Heq].
    rewrite app_nil_r in Heq. rewrite Heq. reflexivity. }
  rewrite !Hc. split; reflexivity.
Qed.

(** ** More on the tools *)

Section ToolsMore.
Context `{PythonRuntime}.

(** X21. When every driver call returns, the browser tool returns the
    success dictionary with the page HTML, having started the driver,
    launched one headless browser, opened one page, navigated once to the
    given URL, read the content, closed the browser and stopped the driver,
    in this order. *)
Theorem browser_tool_page_loaded (drv : Driver) (url html_content : string) :
  start drv = Ret tt -> launch drv true = Ret tt -> new_page drv = Ret tt ->
  goto drv url = Ret tt -> content drv url = Ret html_content ->
  browser_close drv = Ret tt -> stop drv = Ret tt ->
  (use_browser_and_get_content drv url).2 = Ret (success_result html_content) /\
  without_console (use_browser_and_get_content drv url).1
  = [StartDriver; Launch true; NewPage; Goto url; PageContent; BrowserClose; StopDriver].
Proof.
  intros H1 H2 H3 H4 H5 H6 H7.
  unfold use_browser_and_get_content, with_playwright, success_result.
  rewrite H1, H2, H3, H4, H5, H6, H7. split; reflexivity.
Qed.

(** X22. When the navigation raises (an unreachable URL), the browser
    tool returns the error dictionary with the text of that exception; the
    page content is not read, [browser.close()] is not called, and the
    driver is stopped. *)
Theorem browser_tool_unreachable_url (drv : Driver) (url : string) (e : exception) :
  start drv = Ret tt -> launch drv true = Ret tt -> new_page drv = Ret tt ->
  goto drv url = Raise e -> stop drv = Ret tt ->
  (use_browser_and_get_content drv url).2 = Ret (error_result (str_exc e)) /\
  without_console (use_browser_and_get_content drv url).1
  = [StartDriver; Launch true; NewPage; Goto url; StopDriver].
Proof.
  intros H1 H2 H3 H4 H7.
  unfold use_browser_and_get_content, with_playwright, error_result.
  rewrite H1, H2, H3, H4, H7. split; reflexivity.
Qed.

(** X23. On every path the browser tool sends nothing to a websocket,
    launches at most one browser and only headless, navigates at most once
    and only to the given URL, stops the driver exactly when it had
    started, and calls [browser.close()] at most once and only after the
    page content was read. *)
Theorem browser_tool_discipline (drv : Driver) (url : string) :
  frames_sent (use_browser_and_get_content drv url).1 = [] /\
  (launches (use_browser_and_get_content drv url).1 = [] \/
   launches (use_browser_and_get_content drv url).1 = [true]) /\
  (navigations (use_browser_and_get_content drv url).1 = [] \/
   navigations (use_browser_and_get_content drv url).1 = [url]) /\
  occurrences StartDriver (use_browser_and_get_content drv url).1 = 1 /\
  occurrences StopDriver (use_browser_and_get_content drv url).1
  = (if start drv is Ret _ then 1 else 0) /\
  occurrences BrowserClose (use_browser_and_get_content drv url).1 <= 1 /\
  (occurrences BrowserClose (use_browser_and_get_content drv url).1 = 1 ->
   exists html_content, content drv url = Ret html_content).
Proof.
  unfold use_browser_and_get_content, with_playwright.
  driver_cases drv url; simpl;
    repeat split; auto; try (intros; discriminate); eauto.
Qed.


Lemma frames_sent_app (t t' : list effect) :
  frames_sent (t ++ t') = (frames_sent t ++ frames_sent t')%list.
Proof. unfold frames_sent. apply omap_app. Qed.

Lemma launches_app (t t' : list effect) : launches (t ++ t') = (launches t ++ launches t')%list.
Proof. unfold launches. apply omap_app. Qed.

Lemma forwarded_frames (events : list json) :
  frames_sent (map (fun event => SendText (json_dumps event)) events) = map json_dumps events.
Proof. induction events as [|event rest IH]; simpl; [reflexivity|]. f_equal. exact IH. Qed.

Lemma forwarded_launches (events : list json) :
  launches (map (fun event => SendText (json_dumps event)) events) = [].
Proof. induction events as [|event rest IH]; simpl; [reflexivity | exact IH]. Qed.

Lemma forwarded_filter (e : effect) (events : list json) :
  List.filter (is_effect e) (map (fun event => SendText (json_dumps event)) events) = [].
Proof.
  induction events as [|event rest IH]; simpl; [reflexivity|].
  destruct e; exact IH.
Qed.

Lemma forwarded_without_console (events : list json) :
  without_console (map (fun event => SendText (json_dumps event)) events)
  = map (fun event => SendText (json_dumps event)) events.
Proof.
  unfold without_console. induction events as [|event rest IH]; simpl; [reflexivity|].
  f_equal. exact IH.
Qed.

(** X24. Only FileNotFoundError is handled when the recorder reads
    [rrweb.js]: any other exception of the read leaves
    [start_interactive_session] as it is, with no frame sent and no browser
    opened. *)
Theorem recorder_read_error_propagates (drv : Driver) (url : string) (e : exception) :
  (forall msg, e <> FileNotFoundError msg) ->
  (start_interactive_session (Raise e) drv url).2 = Raise e /\
  without_console (start_interactive_session (Raise e) drv url).1 = [].
Proof.
  intros Hne. unfold start_interactive_session.
  destruct e; try (split; reflexivity).
  exfalso. eapply Hne. reflexivity.
Qed.

(** X25. When the script is read and every driver call returns, the
    recorder launches a visible (non-headless) browser, exposes
    [send_event_to_backend], navigates to the URL, evaluates the script and
    then the recording call, sends one frame per emitted event in emission
    order, waits for the page to close and stops the driver. *)
Theorem recorder_streams_events (drv : Driver) (url script : string) :
  start drv = Ret tt -> launch drv false = Ret tt -> new_page drv = Ret tt ->
  expose_function drv "send_event_to_backend" = Ret tt ->
  goto drv url = Ret tt ->
  evaluate drv script = Ret tt -> evaluate drv record_script = Ret tt ->
  wait_for_close drv = Ret tt -> stop drv = Ret tt ->
  (start_interactive_session (Ret script) drv url).2 = Ret tt /\
  frames_sent (start_interactive_session (Ret script) drv url).1
  = map json_dumps (emitted drv url) /\
  without_console (start_interactive_session (Ret script) drv url).1
  = ([StartDriver; Launch false; NewPage; ExposeFunction "send_event_to_backend";
      Goto url; Evaluate script; Evaluate record_script]
     ++ map (fun event => SendText (json_dumps event)) (emitted drv url)
     ++ [WaitForClose; StopDriver])%list.
Proof.
  intros H1 H2 H3 H4 H5 H6 H7 H8 H9.
  unfold start_interactive_session, with_playwright.
  rewrite forward_events_run, H1, H2, H3, H4, H5, H6, H7, H8, H9. simpl.
  split; [reflexivity|]. split.
  - rewrite <- !app_assoc, frames_sent_app, forwarded_frames. simpl. apply app_nil_r.
  - rewrite <- !app_assoc, without_console_app, forwarded_without_console. reflexivity.
Qed.

(** X26. Once the script is read, on every path of the recorder the
    frames sent are none or the serialized emitted events (no error or
    terminal frame is ever sent), the only browser launched is a visible
    one, the driver is stopped exactly when it had started, and
    [browser.close()] is never called. *)
Theorem recorder_discipline (drv : Driver) (url script : string) :
  (frames_sent (start_interactive_session (Ret script) drv url).1 = [] \/
   frames_sent (start_interactive_session (Ret script) drv url).1
   = map json_dumps (emitted drv url)) /\
  (launches (start_interactive_session (Ret script) drv url).1 = [] \/
   launches (start_interactive_session (Ret script) drv url).1 = [false]) /\
  occurrences StopDriver (start_interactive_session (Ret script) drv url).1
  = (if start drv is Ret _ then 1 else 0) /\
  occurrences BrowserClose (start_interactive_session (Ret script) drv url).1 = 0.
Proof.
  unfold start_interactive_session, with_playwright. rewrite forward_events_run.
  destruct (start drv) as [[]|?]; simpl; [|repeat split; auto].
  destruct (launch drv false) as [[]|?]; simpl;
    [|destruct (stop drv) as [[]|?]; simpl; repeat split; auto].
  destruct (new_page drv) as [[]|?]; simpl;
    [|destruct (stop drv) as [[]|?]; simpl; repeat split; auto].
  destruct (expose_function drv _) as [[]|?]; simpl;
    [|destruct (stop drv) as [[]|?]; simpl; repeat split; auto].
  destruct (goto drv url) as [[]|?]; simpl;
    [|destruct (stop drv) as [[]|?]; simpl; repeat split; auto].
  destruct (evaluate drv script) as [[]|?]; simpl;
    [|destruct (stop drv) as [[]|?]; simpl; repeat split; auto].
  destruct (evaluate drv record_script) as [[]|?]; simpl;
    [|destruct (stop drv) as [[]|?]; simpl; repeat split; auto].
  destruct (wait_for_close drv) as [[]|?]; simpl;
    destruct (stop drv) as [[]|?]; simpl;
    rewrite <- ?app_assoc;
    rewrite ?frames_sent_app, ?launches_app, ?forwarded_frames, ?forwarded_launches;
    unfold occurrences; simpl;
    rewrite ?List.filter_app, ?forwarded_filter;
    simpl; rewrite ?app_nil_r; repeat split; auto.
Qed.

(** X27. The recording endpoint never raises: it accepts the connection
    first, ends by logging that the connection closed, whatever the session
    did, and sends the client nothing beyond what the session sent (on a
    failed session no error frame is added). *)
Theorem recording_endpoint_never_raises (rrweb_js : outcome string) (drv : Driver)
    (task_id user_id : string) :
  (websocket_record_session rrweb_js drv task_id user_id).2 = Ret tt /\
  (exists rest, (websocket_record_session rrweb_js drv task_id user_id).1 = Accept :: rest) /\
  (exists front,
     (websocket_record_session rrweb_js drv task_id user_id).1
     = (front ++ [Print ("WebSocket connection for task " +:+ task_id +:+ " closed.")])%list) /\
  frames_sent (websocket_record_session rrweb_js drv task_id user_id).1
  = frames_sent (start_interactive_session rrweb_js drv "https://google.github.io/adk-docs/").1.
Proof.
  unfold websocket_record_session.
  destruct (start_interactive_session rrweb_js drv "https://google.github.io/adk-docs/")
    as [t [[]|e]]; simpl.
  - split; [reflexivity|]. split; [eauto|]. split.
    + eexists (Accept :: Print _ :: t). reflexivity.
    + rewrite frames_sent_app. simpl. apply app_nil_r.
  - split; [reflexivity|]. split; [eauto|]. split.
    + eexists (Accept :: Print _ :: (t ++ [Print _]))%list. reflexivity.
    + rewrite !frames_sent_app. simpl. rewrite !app_nil_r. reflexivity.
Qed.

End ToolsMore.

(** ** Instances of the further properties *)

Lemma create_task_stores_pending_task_witness :
  @create_task sample_runtime sample_request sample_clock empty_db
  = (Ret sample_task, sample_db_after_create) /\
  get_task (Task.id sample_task) empty_db = None /\
  tasks sample_db_after_create = (tasks empty_db ++ [sample_task])%list /\
  get_task (Task.id sample_task) sample_db_after_create = Some sample_task.
Proof.
  assert (Hrun : @create_task sample_runtime sample_request sample_clock empty_db
                 = (Ret sample_task, sample_db_after_create)) by (vm_compute; reflexivity).
  split; [exact Hrun|].
  destruct (@create_task_stores_pending_task sample_runtime sample_request sample_clock
              empty_db sample_db_after_create sample_task Hrun)
    as (_ & Hfresh & _ & Hrows & _ & Hget).
  split; [exact Hfresh|]. split; [exact Hrows | exact Hget].
Defined.

Lemma create_task_rejects_stored_id_witness :
  (binds_integer (CreateTaskRequest.early_reminder_offset_mins sample_request) = true /\
   sample_task ∈ tasks sample_db_after_create /\
   Task.id sample_task
   = @new_task_id sample_runtime (CreateTaskRequest.title sample_request)
       (local_now sample_clock)) /\
  @create_task sample_runtime sample_request sample_clock sample_db_after_create
  = (Raise (IntegrityError "UNIQUE constraint failed: tasks.id"), sample_db_after_create).
Proof.
  assert (Hin : sample_task ∈ tasks sample_db_after_create) by apply list_elem_of_here.
  assert (Hid : Task.id sample_task
                = @new_task_id sample_runtime (CreateTaskRequest.title sample_request)
                    (local_now sample_clock)) by (vm_compute; reflexivity).
  split; [split; [reflexivity | split; [exact Hin | exact Hid]]|].
  exact (@create_task_rejects_stored_id sample_runtime sample_request sample_clock
           sample_db_after_create sample_task eq_refl Hin Hid).
Defined.

Lemma create_all_returns_distinct_ids_witness :
  let requests := [(sample_request, sample_clock); (second_request, sample_clock)] in
  Forall (fun o => is_raise o = false) (@create_all sample_runtime requests empty_db).1 /\
  exists new_rows,
    (@create_all sample_runtime requests empty_db).1 = map Ret new_rows /\
    tasks (@create_all sample_runtime requests empty_db).2 = (tasks empty_db ++ new_rows)%list /\
    push_tokens (@create_all sample_runtime requests empty_db).2 = push_tokens empty_db /\
    NoDup (map Task.id new_rows) /\
    Forall (fun r => get_task (Task.id r) empty_db = None) new_rows.
Proof.
  assert (Hall : Forall (fun o => is_raise o = false)
                   (@create_all sample_runtime
                      [(sample_request, sample_clock); (second_request, sample_clock)]
                      empty_db).1)
    by (vm_compute; repeat constructor).
  split; [exact Hall|].
  exact (@create_all_returns_distinct_ids sample_runtime _ empty_db Hall).
Defined.

Lemma list_tasks_after_create_witness :
  @create_task sample_runtime sample_request sample_clock empty_db
  = (Ret sample_task, sample_db_after_create) /\
  list_tasks_for_user "alice" sample_db_after_create
  = (if decide (CreateTaskRequest.user_id sample_request = "alice")
     then (list_tasks_for_user "alice" empty_db ++ [sample_task])%list
     else list_tasks_for_user "alice" empty_db).
Proof.
  assert (Hrun : @create_task sample_runtime sample_request sample_clock empty_db
                 = (Ret sample_task, sample_db_after_create)) by (vm_compute; reflexivity).
  split; [exact Hrun|].
  exact (@list_tasks_after_create sample_runtime sample_request sample_clock
           empty_db sample_db_after_create sample_task "alice" Hrun).
Defined.

Lemma complete_training_stores_payload_witness :
  get_task "task_2" sample_db = Some alices_task /\
  (@complete_task_training sample_runtime "task_2" [JObj [("type", JStr "click")]]
     "clicked pay" sample_db).1
  = Ret (<["status" := "success"]> (<["task_id" := "task_2"]> ∅)) /\
  exists r',
    get_task "task_2"
      (@complete_task_training sample_runtime "task_2" [JObj [("type", JStr "click")]]
         "clicked pay" sample_db).2 = Some r' /\
    Task.status r' = "trained" /\
    Task.action_plan_json r'
    = Some (@json_dumps sample_runtime (JArr [JObj [("type", JStr "click")]])) /\
    Task.training_transcript r' = Some "clicked pay".
Proof.
  assert (Hget : get_task "task_2" sample_db = Some alices_task) by reflexivity.
  split; [exact Hget|].
  exact (@complete_training_stores_payload sample_runtime "task_2"
           [JObj [("type", JStr "click")]] "clicked pay" sample_db alices_task Hget).
Defined.

Lemma tasks_never_disappear_witness :
  let ops := [Create sample_request sample_clock; Tick (at_time 9 0 0 0);
              CompleteTraining "task_3" [] "done"] in
  primary_key (db sample_world) /\
  exists added,
    map Task.id (list_tasks_for_user "alice"
                   (db (@run_operations sample_runtime always_delivers ops sample_world)))
    = (map Task.id (list_tasks_for_user "alice" (db sample_world)) ++ added)%list.
Proof.
  split; [exact sample_db_primary_key|].
  exact (@tasks_never_disappear sample_runtime always_delivers _ sample_world "alice"
           sample_db_primary_key).
Defined.

Lemma tick_with_provider_up_witness :
  (primary_key (db sample_world) /\
   forall log message, always_delivers log message = Ret tt) /\
  db (check_reminders always_delivers (at_time 9 0 0 0) sample_world)
  = {| tasks := map (fun r => if is_due (isoformat_utc (at_time 9 0 0 0)) r
                                 && has_token (push_tokens (db sample_world)) r
                              then set_status "notified" r else r)
                    (tasks (db sample_world));
       push_tokens := push_tokens (db sample_world) |}.
Proof.
  split; [split; [exact sample_db_primary_key | intros log message; reflexivity]|].
  exact (tick_with_provider_up always_delivers (at_time 9 0 0 0) sample_world
           sample_db_primary_key (fun _ _ => eq_refl)).
Defined.

Lemma ticks_with_provider_down_witness :
  (forall log message, exists e, always_fails log message = Raise e) /\
  db (repeat_check_reminders always_fails [at_time 9 0 0 0; at_time 9 1 0 0] sample_world)
  = db sample_world.
Proof.
  assert (Hdown : forall log message, exists e, always_fails log message = Raise e)
    by (intros log message; eexists; reflexivity).
  split; [exact Hdown|].
  exact (proj1 (ticks_with_provider_down always_fails [at_time 9 0 0 0; at_time 9 1 0 0]
                  sample_world Hdown)).
Defined.

Lemma tick_notifies_due_task_witness :
  (primary_key (db sample_world) /\
   alices_task ∈ tasks (db sample_world) /\
   is_due (isoformat_utc (at_time 9 0 0 0)) alices_task = true /\
   push_tokens (db sample_world) !! Task.user_id alices_task = Some "fcm-token-1" /\
   forall log, always_delivers log (reminder_message (Task.title alices_task) "fcm-token-1")
               = Ret tt) /\
  get_task "task_2" (db (check_reminders always_delivers (at_time 9 0 0 0) sample_world))
  = Some (set_status "notified" alices_task) /\
  deliveries_for "task_2" (sent (check_reminders always_delivers (at_time 9 0 0 0) sample_world))
  = (deliveries_for "task_2" (sent sample_world) ++
     [("task_2", reminder_message "Reminder task_2" "fcm-token-1")])%list.
Proof.
  assert (Hin : alices_task ∈ tasks (db sample_world))
    by (apply list_elem_of_In; simpl; tauto).
  assert (Htok : push_tokens (db sample_world) !! Task.user_id alices_task
                 = Some "fcm-token-1") by (vm_compute; reflexivity).
  split.
  { split; [exact sample_db_primary_key|]. split; [exact Hin|]. split; [reflexivity|].
    split; [exact Htok | intros log; reflexivity]. }
  exact (tick_notifies_due_task always_delivers (at_time 9 0 0 0) sample_world alices_task
           "fcm-token-1" sample_db_primary_key Hin eq_refl Htok (fun _ => eq_refl)).
Defined.


Lemma tick_changes_only_due_status_witness :
  primary_key (db sample_world) /\
  push_tokens (db (check_reminders always_delivers (at_time 9 0 0 0) sample_world))
  = push_tokens (db sample_world) /\
  length (tasks (db (check_reminders always_delivers (at_time 9 0 0 0) sample_world)))
  = length (tasks (db sample_world)).
Proof.
  split; [exact sample_db_primary_key|].
  destruct (tick_changes_only_due_status always_delivers (at_time 9 0 0 0) sample_world
              sample_db_primary_key) as (Htok & Hlen & _).
  split; [exact Htok | exact Hlen].
Defined.

Lemma ticks_skip_task_not_pending_witness :
  (primary_key (db sample_world) /\
   delivered_task ∈ tasks (db sample_world) /\
   Task.status delivered_task <> "pending") /\
  get_task (Task.id delivered_task)
    (db (repeat_check_reminders always_delivers [at_time 9 0 0 0; at_time 9 1 0 0] sample_world))
  = Some delivered_task /\
  deliveries_for (Task.id delivered_task)
    (sent (repeat_check_reminders always_delivers [at_time 9 0 0 0; at_time 9 1 0 0]
             sample_world))
  = deliveries_for (Task.id delivered_task) (sent sample_world).
Proof.
  assert (Hin : delivered_task ∈ tasks (db sample_world))
    by (apply list_elem_of_In; simpl; tauto).
  assert (Hst : Task.status delivered_task <> "pending") by discriminate.
  split; [split; [exact sample_db_primary_key | split; [exact Hin | exact Hst]]|].
  exact (ticks_skip_task_not_pending always_delivers [at_time 9 0 0 0; at_time 9 1 0 0]
           sample_world delivered_task sample_db_primary_key Hin Hst).
Defined.

Lemma execute_without_final_response_witness :
  no_final [tool_call_event; tool_call_event] /\
  execute_thinker_task "session-1"
    {| yielded := [tool_call_event; tool_call_event]; failure := None |}
  = Ret (<["status" := JStr "completed"]>
           (<["final_result" := JStr "Thinker agent finished without a final text response."]>
              (<["session_id" := JStr "session-1"]> ∅))).
Proof.
  assert (Hno : no_final [tool_call_event; tool_call_event]) by (repeat constructor).
  split; [exact Hno|].
  exact (proj2 (execute_without_final_response "session-1" _ Hno)).
Defined.

Lemma execute_reports_last_final_response_witness :
  (finals_readable [answer_event "Opening the page"; tool_call_event] /\
   is_final_response (answer_event "The headline is X") = true /\
   first_part_text (answer_event "The headline is X") = Ret (Some "The headline is X") /\
   no_final [tool_call_event]) /\
  execute_browse_task "session-1"
    {| yielded := [answer_event "Opening the page"; tool_call_event]
                  ++ answer_event "The headline is X" :: [tool_call_event];
       failure := None |}
  = Ret (<["status" := JStr "completed"]>
           (<["session_id" := JStr "session-1"]>
              (<["agent_result" := json_of_text (Some "The headline is X")]> ∅))).
Proof.
  assert (Hread : finals_readable [answer_event "Opening the page"; tool_call_event]).
  { repeat constructor; intros; try discriminate; eexists; reflexivity. }
  assert (Hno : no_final [tool_call_event]) by (repeat constructor).
  split; [split; [exact Hread | split; [reflexivity | split; [reflexivity | exact Hno]]]|].
  exact (proj1 (execute_reports_last_final_response "session-1" (Some "The headline is X")
                  _ _ (answer_event "The headline is X") Hread eq_refl eq_refl Hno)).
Defined.

Lemma execute_raises_on_unreadable_final_witness :
  (finals_readable [tool_call_event] /\
   is_final_response broken_event = true /\
   first_part_text broken_event
   = Raise (OtherException "AttributeError" "NoneType object has no attribute parts")) /\
  execute_thinker_task "session-1"
    {| yielded := [tool_call_event] ++ broken_event :: [answer_event "too late"];
       failure := None |}
  = Raise (OtherException "AttributeError" "NoneType object has no attribute parts").
Proof.
  assert (Hread : finals_readable [tool_call_event]).
  { repeat constructor; intros; discriminate. }
  split; [split; [exact Hread | split; reflexivity]|].
  exact (proj2 (execute_raises_on_unreadable_final "session-1" _ [answer_event "too late"]
                  broken_event None _ Hread eq_refl eq_refl)).
Defined.

Lemma execute_propagates_runner_failure_witness :
  finals_readable [answer_event "Opening the page"] /\
  execute_browse_task "session-1"
    {| yielded := [answer_event "Opening the page"];
       failure := Some (OtherException "RuntimeError" "model unavailable") |}
  = Raise (OtherException "RuntimeError" "model unavailable").
Proof.
  assert (Hread : finals_readable [answer_event "Opening the page"]).
  { repeat constructor; intros; eexists; reflexivity. }
  split; [exact Hread|].
  exact (proj1 (execute_propagates_runner_failure "session-1" _
                  (OtherException "RuntimeError" "model unavailable") Hread)).
Defined.

Lemma browser_tool_page_loaded_witness :
  (start working_driver = Ret tt /\ launch working_driver true = Ret tt /\
   new_page working_driver = Ret tt /\ goto working_driver "https://example.org/" = Ret tt /\
   content working_driver "https://example.org/" = Ret "<html>https://example.org/</html>" /\
   browser_close working_driver = Ret tt /\ stop working_driver = Ret tt) /\
  (use_browser_and_get_content working_driver "https://example.org/").2
  = Ret (success_result "<html>https://example.org/</html>") /\
  without_console (use_browser_and_get_content working_driver "https://example.org/").1
  = [StartDriver; Launch true; NewPage; Goto "https://example.org/"; PageContent;
     BrowserClose; StopDriver].
Proof.
  split; [repeat split|].
  exact (browser_tool_page_loaded working_driver "https://example.org/"
           "<html>https://example.org/</html>"
           eq_refl eq_refl eq_refl eq_refl eq_refl eq_refl eq_refl).
Defined.

Lemma browser_tool_unreachable_url_witness :
  (start unreachable_driver = Ret tt /\ launch unreachable_driver true = Ret tt /\
   new_page unreachable_driver = Ret tt /\
   goto unreachable_driver "https://unreachable.invalid/"
   = Raise (PlaywrightError "net::ERR_NAME_NOT_RESOLVED at https://unreachable.invalid/") /\
   stop unreachable_driver = Ret tt) /\
  (use_browser_and_get_content unreachable_driver "https://unreachable.invalid/").2
  = Ret (error_result "net::ERR_NAME_NOT_RESOLVED at https://unreachable.invalid/") /\
  without_console (use_browser_and_get_content unreachable_driver "https://unreachable.invalid/").1
  = [StartDriver; Launch true; NewPage; Goto "https://unreachable.invalid/"; StopDriver].
Proof.
  split; [repeat split|].
  exact (browser_tool_unreachable_url unreachable_driver "https://unreachable.invalid/"
           (PlaywrightError "net::ERR_NAME_NOT_RESOLVED at https://unreachable.invalid/")
           eq_refl eq_refl eq_refl eq_refl eq_refl).
Defined.

Lemma recorder_read_error_propagates_witness :
  (forall msg, OtherException "PermissionError" "Permission denied: rrweb.js"
               <> FileNotFoundError msg) /\
  (@start_interactive_session sample_runtime
     (Raise (OtherException "PermissionError" "Permission denied: rrweb.js"))
     working_driver "https://example.org/").2
  = Raise (OtherException "PermissionError" "Permission denied: rrweb.js") /\
  without_console
    (@start_interactive_session sample_runtime
       (Raise (OtherException "PermissionError" "Permission denied: rrweb.js"))
       working_driver "https://example.org/").1 = [].
Proof.
  assert (Hne : forall msg, OtherException "PermissionError" "Permission denied: rrweb.js"
                            <> FileNotFoundError msg) by (intros msg; discriminate).
  split; [exact Hne|].
  exact (@recorder_read_error_propagates sample_runtime working_driver "https://example.org/"
           _ Hne).
Defined.

Lemma recorder_streams_events_witness :
  (start working_driver = Ret tt /\ launch working_driver false = Ret tt /\
   new_page working_driver = Ret tt /\
   expose_function working_driver "send_event_to_backend" = Ret tt /\
   goto working_driver "https://example.org/" = Ret tt /\
   evaluate working_driver "rrweb" = Ret tt /\ evaluate working_driver record_script = Ret tt /\
   wait_for_close working_driver = Ret tt /\ stop working_driver = Ret tt) /\
  (@start_interactive_session sample_runtime (Ret "rrweb") working_driver
     "https://example.org/").2 = Ret tt /\
  frames_sent (@start_interactive_session sample_runtime (Ret "rrweb") working_driver
                 "https://example.org/").1
  = map (@json_dumps sample_runtime) (emitted working_driver "https://example.org/").
Proof.
  split; [repeat split|].
  destruct (@recorder_streams_events sample_runtime working_driver "https://example.org/" "rrweb"
              eq_refl eq_refl eq_refl eq_refl eq_refl eq_refl eq_refl eq_refl eq_refl)
    as (Hret & Hframes & _).
  split; [exact Hret | exact Hframes].
Defined.
